(** * markdown2html: a shallow embedding of [markdown2html.py]

    The script rewrites a Markdown file line by line: inline directives
    (hash, character removal, bold, emphasis), headings, list items and
    paragraphs.  Every function of the script is translated below under its
    own name, next to the few primitives of Python's [str], [re] and
    [hashlib] that it calls.

    A Python [str] is modelled as a [string] whose characters are the code
    points below 256; [str.encode()] is UTF-8 on those code points. *)

From Stdlib Require Import Bool Arith NArith List Ascii String Lia.
From Stdlib Require Import DecimalString.
Import ListNotations.
Open Scope list_scope.
Open Scope string_scope.

(** ** Python's [str] primitives used by the script *)

Module PyStr.

(** [s.startswith(p)] *)
Fixpoint startswith (p s : string) : bool :=
  match p, s with
  | EmptyString, _ => true
  | String a p', String b s' => Ascii.eqb a b && startswith p' s'
  | String _ _, EmptyString => false
  end.

(** [s.startswith((p1, p2, ...))]: a tuple of prefixes. *)
Definition startswith_any (ps : list string) (s : string) : bool :=
  existsb (fun p => startswith p s) ps.

(** [s[n:]] *)
Fixpoint slice_from (n : nat) (s : string) : string :=
  match n, s with
  | O, _ => s
  | S _, EmptyString => EmptyString
  | S n', String _ s' => slice_from n' s'
  end.

(** [s.count(c)] for a pattern [c] of one character. *)
Fixpoint count_char (c : ascii) (s : string) : nat :=
  match s with
  | EmptyString => O
  | String a s' => (if Ascii.eqb a c then 1 else 0) + count_char c s'
  end.

(** [s.replace(c, '')] for a pattern [c] of one character. *)
Fixpoint remove_char (c : ascii) (s : string) : string :=
  match s with
  | EmptyString => EmptyString
  | String a s' =>
      if Ascii.eqb a c then remove_char c s' else String a (remove_char c s')
  end.

(** Membership of a character in the argument of [strip]. *)
Fixpoint mem (a : ascii) (chars : string) : bool :=
  match chars with
  | EmptyString => false
  | String b chars' => Ascii.eqb a b || mem a chars'
  end.

Fixpoint lstrip_by (p : ascii -> bool) (s : string) : string :=
  match s with
  | EmptyString => EmptyString
  | String a s' => if p a then lstrip_by p s' else s
  end.

Fixpoint rstrip_by (p : ascii -> bool) (s : string) : string :=
  match s with
  | EmptyString => EmptyString
  | String a s' =>
      match rstrip_by p s' with
      | EmptyString => if p a then EmptyString else String a EmptyString
      | r => String a r
      end
  end.

Definition strip_by (p : ascii -> bool) (s : string) : string :=
  lstrip_by p (rstrip_by p s).

(** [s.strip(chars)] *)
Definition strip_chars (chars s : string) : string :=
  strip_by (fun a => mem a chars) s.

(** [c.isspace()] on the code points below 256: TAB, LF, VT, FF, CR,
    FS, GS, RS, US, SPACE, NEL and NBSP. *)
Definition isspace (a : ascii) : bool :=
  let n := nat_of_ascii a in
  (((9 <=? n) && (n <=? 13)) || ((28 <=? n) && (n <=? 32))
   || (n =? 133) || (n =? 160))%nat.

(** [s.strip()] *)
Definition strip (s : string) : string := strip_by isspace s.

(** Every character of [s] is one of [chars]. *)
Fixpoint all_in (chars s : string) : bool :=
  match s with
  | EmptyString => true
  | String a s' => mem a chars && all_in chars s'
  end.

(** [p in s] *)
Fixpoint contains (p s : string) {struct s} : bool :=
  startswith p s
  || match s with
     | EmptyString => false
     | String _ s' => contains p s'
     end.

(** [str(n)], as an f-string prints a non-negative [int]. *)
Definition str_of_nat (n : nat) : string :=
  NilZero.string_of_uint (Nat.to_uint n).

(** [c * n] *)
Fixpoint repeat_char (c : ascii) (n : nat) : string :=
  match n with
  | O => EmptyString
  | S n' => String c (repeat_char c n')
  end.

End PyStr.

Import PyStr.

(** ** [hashlib.md5]: RFC 1321 on 32-bit words

    A word is an [N] below [2^32]; every addition and left shift is
    reduced modulo [2^32]. *)

Module MD5.
Local Open Scope N_scope.

Definition add32 (x y : N) : N := (x + y) mod 2 ^ 32.
Definition not32 (x : N) : N := N.lxor x 0xffffffff.
Definition rotl32 (x c : N) : N :=
  N.lor (N.shiftl x c mod 2 ^ 32) (N.shiftr x (32 - c)).

(** Per-round shift amounts. *)
Definition shifts : list N :=
  [7; 12; 17; 22; 7; 12; 17; 22; 7; 12; 17; 22; 7; 12; 17; 22;
   5; 9; 14; 20; 5; 9; 14; 20; 5; 9; 14; 20; 5; 9; 14; 20;
   4; 11; 16; 23; 4; 11; 16; 23; 4; 11; 16; 23; 4; 11; 16; 23;
   6; 10; 15; 21; 6; 10; 15; 21; 6; 10; 15; 21; 6; 10; 15; 21].

(** [K[i] = floor(2^32 * abs(sin(i + 1)))]. *)
Definition sines : list N :=
  [0xd76aa478; 0xe8c7b756; 0x242070db; 0xc1bdceee;
   0xf57c0faf; 0x4787c62a; 0xa8304613; 0xfd469501;
   0x698098d8; 0x8b44f7af; 0xffff5bb1; 0x895cd7be;
   0x6b901122; 0xfd987193; 0xa679438e; 0x49b40821;
   0xf61e2562; 0xc040b340; 0x265e5a51; 0xe9b6c7aa;
   0xd62f105d; 0x02441453; 0xd8a1e681; 0xe7d3fbc8;
   0x21e1cde6; 0xc33707d6; 0xf4d50d87; 0x455a14ed;
   0xa9e3e905; 0xfcefa3f8; 0x676f02d9; 0x8d2a4c8a;
   0xfffa3942; 0x8771f681; 0x6d9d6122; 0xfde5380c;
   0xa4beea44; 0x4bdecfa9; 0xf6bb4b60; 0xbebfbc70;
   0x289b7ec6; 0xeaa127fa; 0xd4ef3085; 0x04881d05;
   0xd9d4d039; 0xe6db99e5; 0x1fa27cf8; 0xc4ac5665;
   0xf4292244; 0x432aff97; 0xab9423a7; 0xfc93a039;
   0x655b59c3; 0x8f0ccc92; 0xffeff47d; 0x85845dd1;
   0x6fa87e4f; 0xfe2ce6e0; 0xa3014314; 0x4e0811a1;
   0xf7537e82; 0xbd3af235; 0x2ad7d2bb; 0xeb86d391].

Record state := State { sa : N; sb : N; sc : N; sd : N }.

Definition init : state :=
  State 0x67452301 0xefcdab89 0x98badcfe 0x10325476.

(** The mixing function of round [i] and the index of the message word
    it reads. *)
Definition mix (i : nat) (b c d : N) : N :=
  if (i <? 16)%nat then N.lor (N.land b c) (N.land (not32 b) d)
  else if (i <? 32)%nat then N.lor (N.land d b) (N.land (not32 d) c)
  else if (i <? 48)%nat then N.lxor (N.lxor b c) d
  else N.lxor c (N.lor b (not32 d)).

Definition word_index (i : nat) : nat :=
  if (i <? 16)%nat then i
  else if (i <? 32)%nat then ((5 * i + 1) mod 16)%nat
  else if (i <? 48)%nat then ((3 * i + 5) mod 16)%nat
  else ((7 * i) mod 16)%nat.

Definition round (m : list N) (st : state) (i : nat) : state :=
  let f := add32 (add32 (add32 (mix i (sb st) (sc st) (sd st)) (sa st))
                        (nth i sines 0))
                 (nth (word_index i) m 0) in
  State (sd st) (add32 (sb st) (rotl32 f (nth i shifts 0))) (sb st) (sc st).

(** One 512-bit block, given as sixteen little-endian words. *)
Definition compress (st : state) (m : list N) : state :=
  let r := fold_left (round m) (seq 0 64) st in
  State (add32 (sa st) (sa r)) (add32 (sb st) (sb r))
        (add32 (sc st) (sc r)) (add32 (sd st) (sd r)).

Fixpoint words_of_bytes (bs : list N) : list N :=
  match bs with
  | b0 :: b1 :: b2 :: b3 :: rest =>
      (b0 + 2 ^ 8 * b1 + 2 ^ 16 * b2 + 2 ^ 24 * b3) :: words_of_bytes rest
  | _ => []
  end.

Definition bytes_le (n : nat) (x : N) : list N :=
  map (fun k => (x / 2 ^ (8 * N.of_nat k)) mod 256) (seq 0 n).

(** Padding: a [0x80] byte, zeros up to 56 modulo 64, then the bit
    length on 64 bits. *)
Definition pad (msg : list N) : list N :=
  let len := List.length msg in
  (msg ++ [0x80] ++ repeat 0 ((119 - len mod 64) mod 64)
       ++ bytes_le 8 ((8 * N.of_nat len) mod 2 ^ 64))%list.

Fixpoint blocks (n : nat) (st : state) (ws : list N) : state :=
  match n with
  | O => st
  | S n' => blocks n' (compress st (firstn 16 ws)) (skipn 16 ws)
  end.

Definition digest (msg : list N) : list N :=
  let ws := words_of_bytes (pad msg) in
  let st := blocks (List.length ws / 16) init ws in
  (bytes_le 4 (sa st) ++ bytes_le 4 (sb st)
     ++ bytes_le 4 (sc st) ++ bytes_le 4 (sd st))%list.

Definition hex_digit (n : N) : ascii :=
  nth (N.to_nat n)
      ["0"; "1"; "2"; "3"; "4"; "5"; "6"; "7";
       "8"; "9"; "a"; "b"; "c"; "d"; "e"; "f"]%char "0"%char.

Fixpoint hex (bs : list N) : string :=
  match bs with
  | [] => EmptyString
  | b :: bs' =>
      String (hex_digit ((b / 16) mod 16)) (String (hex_digit (b mod 16)) (hex bs'))
  end.

(** [hashlib.md5(bytes).hexdigest()] *)
Definition hexdigest (msg : list N) : string := hex (digest msg).

End MD5.

(** [s.encode()]: UTF-8, one byte below 128 and two bytes from 128
    to 255. *)
Fixpoint encode (s : string) : list N :=
  match s with
  | EmptyString => []
  | String a s' =>
      let n := N_of_ascii a in
      if (n <? 128)%N then n :: encode s'
      else (192 + n / 64)%N :: (128 + n mod 64)%N :: encode s'
  end.

(** ** [md5_hash] *)

Definition md5_hash (content : string) : string :=
  MD5.hexdigest (encode content).

(** ** [re.sub] for a pattern [OPEN(.*?)CLOSE]

    [OPEN] and [CLOSE] are literal delimiters.  The lazy group takes as few
    characters as it can, and [.] refuses the line feed.  [re.sub] scans from
    the left: where the pattern matches, the replacement of the group is
    written and the scan goes on after the match; elsewhere the character is
    copied. *)

Module Re.

(** A delimiter of two characters. *)
Definition delimiter (a b : ascii) : string := String a (String b EmptyString).

(** The group [(.*?)] and then [close], tried at the head of [s]: the
    group and what follows the match. *)
Fixpoint lazy_group (close s : string) {struct s} : option (string * string) :=
  if startswith close s then
    Some (EmptyString, slice_from (String.length close) s)
  else
    match s with
    | EmptyString => None
    | String a s' =>
        if Ascii.eqb a "010" then None
        else
          match lazy_group close s' with
          | Some (g, rest) => Some (String a g, rest)
          | None => None
          end
    end.

(** The whole pattern tried at the head of [s]. *)
Definition match_at (open close s : string) : option (string * string) :=
  if startswith open s then
    lazy_group close (slice_from (String.length open) s)
  else None.

Fixpoint sub_fuel (fuel : nat) (open close : string)
         (repl : string -> string) (s : string) : string :=
  match fuel with
  | O => s
  | S fuel' =>
      match match_at open close s with
      | Some (g, rest) => repl g ++ sub_fuel fuel' open close repl rest
      | None =>
          match s with
          | EmptyString => EmptyString
          | String a s' => String a (sub_fuel fuel' open close repl s')
          end
      end
  end.

(** [re.sub(pattern, repl, s)]; the length of [s] is fuel enough, see
    [sub_equation] below. *)
Definition sub (open close : string) (repl : string -> string)
           (s : string) : string :=
  sub_fuel (String.length s) open close repl s.

End Re.

(** ** [remove_character] *)

Definition remove_character (line : string) : string :=
  let line := Re.sub "[[" "]]" (fun group1 => md5_hash group1) line in
  let line :=
    Re.sub "((" "))"
           (fun group1 => remove_char "C" (remove_char "c" group1)) line in
  line.

(** ** [process_inline_formatting] *)

Definition process_inline_formatting (text : string) : string :=
  let text := Re.sub "**" "**" (fun group1 => "<b>" ++ group1 ++ "</b>") text in
  let text := Re.sub "__" "__" (fun group1 => "<em>" ++ group1 ++ "</em>") text in
  text.

(** ** [heading] *)

Definition heading (line : string) : string :=
  if startswith "#" line then
    let level := count_char "#" line in
    let line_content := strip (strip_chars "#" line) in
    "<h" ++ str_of_nat level ++ ">" ++ line_content
         ++ "</h" ++ str_of_nat level ++ ">"
  else line.

(** ** [list]

    The script's function is called [list]; it is [list_] here, to leave
    Rocq's type of lists alone.  [list_type] is [None] or the tag name. *)

Definition fmt_list_type (list_type : option string) : string :=
  match list_type with
  | Some tag => tag
  | None => "None"
  end.

Definition list_ (line : string) (in_list : bool) (list_type : option string)
  : string * bool * option string :=
  if startswith_any ["- "; "* "] line then
    if negb in_list then
      let tag := if startswith "- " line then "ul" else "ol" in
      ("<" ++ tag ++ ">" ++ String "010" "<li>" ++ strip (slice_from 2 line)
           ++ "</li>",
       true, Some tag)
    else
      ("<li>" ++ strip (slice_from 2 line) ++ "</li>", true, list_type)
  else
    if in_list then
      ("</" ++ fmt_list_type list_type ++ ">" ++ line, false, None)
    else
      (line, in_list, list_type).

(** ** [convert_line]

    The loop body is [convert_step]: the state is the flag [in_paragraph]
    and the list [html_lines] built so far. *)

Definition convert_step (st : bool * list string) (line : string)
  : bool * list string :=
  let '(in_paragraph, html_lines) := st in
  if startswith_any ["<h"; "</ul>"; "</ol>"] line then
    let '(in_paragraph, html_lines) :=
      if in_paragraph then (false, (html_lines ++ ["</p>"])%list)
      else (in_paragraph, html_lines) in
    (in_paragraph, (html_lines ++ [line])%list)
  else if startswith_any ["<ul"; "<li"; "<ol"] line then
    let in_paragraph := if in_paragraph then false else in_paragraph in
    (in_paragraph, (html_lines ++ [line])%list)
  else if String.eqb (strip line) "" then
    if in_paragraph then (false, (html_lines ++ ["</p>"])%list)
    else (in_paragraph, html_lines)
  else
    let '(in_paragraph, html_lines) :=
      if negb in_paragraph then (true, (html_lines ++ ["<p>"])%list)
      else if in_paragraph then (in_paragraph, (html_lines ++ ["<br />"])%list)
      else (in_paragraph, html_lines) in
    (in_paragraph, (html_lines ++ [line])%list).

Definition convert_line (lines : list string) : list string :=
  let '(in_paragraph, html_lines) := fold_left convert_step lines (false, []) in
  if in_paragraph then (html_lines ++ ["</p>"])%list else html_lines.

(** ** The pipeline of [__main__]

    [lines] are the lines of the Markdown file without their line feed;
    the result is the list of lines written to the HTML file. *)

Definition main_step (st : list string * bool * option string) (line : string)
  : list string * bool * option string :=
  let '(processed_lines, in_list, list_type) := st in
  let line := remove_character line in
  let line := process_inline_formatting line in
  let '(processed_line, in_list, list_type) :=
    list_ (heading line) in_list list_type in
  ((processed_lines ++ [processed_line])%list, in_list, list_type).

Definition main (lines : list string) : list string :=
  let '(processed_lines, in_list, list_type) :=
    fold_left main_step lines ([], false, None) in
  let processed_lines := convert_line processed_lines in
  let last_line :=
    if in_list then ["</" ++ fmt_list_type list_type ++ ">"] else [] in
  (processed_lines ++ last_line)%list.

(** ** Reading and writing the files

    [content] is the text of the file as text mode hands it over, every
    line end a line feed.  Iterating over the file gives its lines, each
    with its line feed, the last one without if the text does not end with
    one; the script strips the line feeds with [strip('\n')]. *)

Fixpoint iter_lines (content : string) : list string :=
  match content with
  | EmptyString => []
  | String a rest =>
      if Ascii.eqb a "010" then String a EmptyString :: iter_lines rest
      else
        match iter_lines rest with
        | [] => [String a EmptyString]
        | l :: ls => String a l :: ls
        end
  end.

(** [[line.strip('\n') for line in f]] *)
Definition read_lines (content : string) : list string :=
  map (strip_chars (String "010" EmptyString)) (iter_lines content).

(** The text of the HTML file: [html.write(line + '\n')] for every line. *)
Fixpoint write_lines (lines : list string) : string :=
  match lines with
  | [] => EmptyString
  | line :: rest => line ++ String "010" (write_lines rest)
  end.

(** ** The command line

    What [open] does with a file name is given by the environment: it
    opens the file, raises [FileNotFoundError], or raises something else
    (no permission, a directory, text that cannot be decoded).  The script
    ends by writing the HTML file (exit code 0), by a message on the error
    output (exit code 1), or by an exception it does not catch. *)

Inductive opened (A : Type) : Type :=
| Opens (content : A)
| FileNotFound
| OtherError.

Arguments Opens {A} content.
Arguments FileNotFound {A}.
Arguments OtherError {A}.

Record env := Env {
  open_read : string -> opened string;
  open_write : string -> opened unit
}.

Inductive outcome : Type :=
| Finished (html_file text : string)
| Failed (message : string)
| Uncaught.

Definition script (argv : list string) (e : env) : outcome :=
  if (List.length argv <? 3)%nat then
    Failed "Usage: ./markdown2html.py README.md README.html"
  else
    let markdown_file := nth 1 argv EmptyString in
    let html_file := nth 2 argv EmptyString in
    match open_read e markdown_file with
    | Opens content =>
        let lines := read_lines content in
        let processed_lines := main lines in
        match open_write e html_file with
        | Opens _ => Finished html_file (write_lines processed_lines)
        | FileNotFound => Failed ("Missing " ++ markdown_file)
        | OtherError => Uncaught
        end
    | FileNotFound => Failed ("Missing " ++ markdown_file)
    | OtherError => Uncaught
    end.

(** * Notions used in the statements *)

(** The alphabet of [hexdigest]. *)
Definition lower_hex : string := "0123456789abcdef".

(** ** The loop of [convert_line], turn by turn *)

(** What one turn of the loop appends, and the flag it leaves. *)
Definition step_out (in_paragraph : bool) (line : string) : list string :=
  snd (convert_step (in_paragraph, []) line).

Definition step_flag (in_paragraph : bool) (line : string) : bool :=
  fst (convert_step (in_paragraph, []) line).

(** What the loop appends over [lines], and the flag it ends with. *)
Fixpoint loop_out (b : bool) (lines : list string) : list string :=
  match lines with
  | [] => []
  | line :: rest => (step_out b line ++ loop_out (step_flag b line) rest)%list
  end.

Fixpoint loop_flag (b : bool) (lines : list string) : bool :=
  match lines with
  | [] => b
  | line :: rest => loop_flag (step_flag b line) rest
  end.

(** In every prefix of [out], the [</p>] lines are at most [k] more than
    the [<p>] lines. *)
Definition closes_within (k : nat) (out : list string) : Prop :=
  forall n,
    count_occ string_dec (firstn n out) "</p>"
    <= k + count_occ string_dec (firstn n out) "<p>".

(** ** The loop of [__main__] *)

(** The line [list] receives: the raw line after the inline rewrites and
    [heading]. *)
Definition list_input (line : string) : string :=
  heading (process_inline_formatting (remove_character line)).

Definition is_item (line : string) : bool :=
  startswith_any ["- "; "* "] line.

Definition item (line : string) : string :=
  "<li>" ++ strip (slice_from 2 line) ++ "</li>".

(** The tag an item line chooses when it opens a list, and the line
    produced for it. *)
Definition tag_of (line : string) : string :=
  if startswith "- " line then "ul" else "ol".

Definition opening_line (line : string) : string :=
  "<" ++ tag_of line ++ ">" ++ String "010" (item line).

(** The closing tag of the open list, and the line produced for a line
    [line] that closes it. *)
Definition closing_tag (list_type : option string) : string :=
  "</" ++ fmt_list_type list_type ++ ">".

Definition closing_line (list_type : option string) (line : string) : string :=
  "</" ++ fmt_list_type list_type ++ ">" ++ line.

(** A line without Markdown: no inline delimiter, no leading [#], no list
    marker. *)
Definition no_markdown (line : string) : bool :=
  negb (contains "[[" line) && negb (contains "((" line)
  && negb (contains "**" line) && negb (contains "__" line)
  && negb (startswith "#" line) && negb (startswith_any ["- "; "* "] line).

(** The lines of the third and of the last branch of the loop of
    [convert_line]: blank lines, and text. *)
Definition is_blank (line : string) : bool :=
  negb (startswith_any ["<h"; "</ul>"; "</ol>"] line)
  && negb (startswith_any ["<ul"; "<li"; "<ol"] line)
  && String.eqb (strip line) "".

Definition is_text (line : string) : bool :=
  negb (startswith_any ["<h"; "</ul>"; "</ol>"] line)
  && negb (startswith_any ["<ul"; "<li"; "<ol"] line)
  && negb (String.eqb (strip line) "").

(** The lines of a paragraph after the first, each behind its break. *)
Definition with_breaks (lines : list string) : list string :=
  flat_map (fun line => ["<br />"; line]) lines.

(** A text that is not empty and does not end with a line feed. *)
Fixpoint lacks_final_lf (content : string) : bool :=
  match content with
  | EmptyString => false
  | String a EmptyString => negb (Ascii.eqb a "010")
  | String _ rest => lacks_final_lf rest
  end.

(** A line as the iteration over a file gives it: a body without line
    feed, and perhaps a line feed behind it. *)
Definition raw_line (body line : string) : Prop :=
  mem "010" body = false
  /\ (line = body \/ line = body ++ String "010" EmptyString).

(** ** The steps of the inline rewriter *)

(** The two statements of [remove_character], one by one, and the
    inline rewriter of the pipeline: [remove_character], then
    [process_inline_formatting]. *)
Definition hash_rewrite (line : string) : string :=
  Re.sub "[[" "]]" (fun group1 => md5_hash group1) line.

Definition paren_rewrite (line : string) : string :=
  Re.sub "((" "))"
         (fun group1 => remove_char "C" (remove_char "c" group1)) line.

Definition inline_rewrite (line : string) : string :=
  process_inline_formatting (remove_character line).

(** ** The list tags of the output *)

(** A line that starts with a tag of a list. *)
Definition is_list_tag (line : string) : bool :=
  startswith_any ["<ul>"; "<ol>"; "</ul>"; "</ol>"] line.

(** Reading the output from the top: [Some None] while no list is open,
    [Some (Some tag)] while a list of type [tag] is open, [None] once a
    tag came out of turn (a closing tag with no list open or of another
    type, an opening tag inside a list).  Other lines change nothing. *)
Definition tag_step (st : option (option string)) (line : string)
  : option (option string) :=
  match st with
  | None => None
  | Some open =>
      if negb (is_list_tag line) then Some open
      else
        match open with
        | None =>
            if startswith "<ul>" line then Some (Some "ul")
            else if startswith "<ol>" line then Some (Some "ol")
            else None
        | Some tag =>
            if startswith ("</" ++ tag ++ ">") line then Some None else None
        end
  end.

(** Every list opened in [lines] is closed once, by the next list tag,
    under its own type, and nothing is closed that was not opened. *)
Definition closed_once (lines : list string) : bool :=
  match fold_left tag_step lines (Some None) with
  | Some None => true
  | _ => false
  end.

(** * Runs of the definitions *)

(** The test suite of RFC 1321, and a message of two blocks. *)
Example md5_hash_empty : md5_hash "" = "d41d8cd98f00b204e9800998ecf8427e".
Proof. vm_compute. reflexivity. Qed.

Example md5_hash_abc : md5_hash "abc" = "900150983cd24fb0d6963f7d28e17f72".
Proof. vm_compute. reflexivity. Qed.

Example md5_hash_alphabet :
  md5_hash "abcdefghijklmnopqrstuvwxyz" = "c3fcd3d76192e4007dfb496cca67e13b".
Proof. vm_compute. reflexivity. Qed.

Example md5_hash_digits :
  md5_hash ("1234567890123456789012345678901234567890"
              ++ "1234567890123456789012345678901234567890")
  = "57edf4a22be3c955ac49da2e2107b67a".
Proof. vm_compute. reflexivity. Qed.

(** A character above 127 is hashed through its two bytes: [e] with an
    acute accent. *)
Example md5_hash_two_bytes :
  md5_hash (String (ascii_of_nat 233) "") = "66ddcd97cfdeabb2f6fb8a999b4bc76f".
Proof. vm_compute. reflexivity. Qed.

(** Lazy spans, from the left; delimiters without a partner stay. *)
Example remove_character_run :
  remove_character "a((x((Cc))b)) [[]] (("
  = "ax((b)) d41d8cd98f00b204e9800998ecf8427e ((".
Proof. vm_compute. reflexivity. Qed.

Example process_inline_formatting_run :
  process_inline_formatting "****b** ___a__ __" = "<b></b>b** <em>_a</em> __".
Proof. vm_compute. reflexivity. Qed.

Example strip_run :
  strip (String "009" " a b " ++ String "010" "") = "a b".
Proof. reflexivity. Qed.

Example heading_run : heading "###### Title" = "<h6>Title</h6>".
Proof. reflexivity. Qed.

Example main_run :
  main ["- a"; "* b"; "# t #"; "x"; "- c"]
  = ["<ul>" ++ String "010" "<li>a</li>"; "<li>b</li>"; "</ul><h2>t</h2>";
     "<p>"; "x"; "<ul>" ++ String "010" "<li>c</li>"; "</ul>"].
Proof. vm_compute. reflexivity. Qed.

(** * Facts about the primitives *)

Section StringFacts.

Lemma str_length_app (a b : string) :
  String.length (a ++ b) = String.length a + String.length b.
Proof. induction a as [|x a IH]; simpl; [reflexivity | now rewrite IH]. Qed.

Lemma startswith_app (p s : string) : startswith p (p ++ s) = true.
Proof.
  induction p as [|x p IH]; simpl; [reflexivity|].
  now rewrite Ascii.eqb_refl, IH.
Qed.

Lemma slice_from_app (p s : string) : slice_from (String.length p) (p ++ s) = s.
Proof. induction p as [|x p IH]; simpl; [now destruct s | exact IH]. Qed.

Lemma startswith_ex (p s : string) :
  startswith p s = true -> exists r, s = p ++ r.
Proof.
  revert s; induction p as [|x p IH]; intros s H.
  - now exists s.
  - destruct s as [|y s]; simpl in H; [discriminate|].
    apply andb_prop in H as [Hxy Hp].
    apply Ascii.eqb_eq in Hxy; subst y.
    destruct (IH s Hp) as [r ->]. now exists r.
Qed.

Lemma startswith_inv (p s : string) :
  startswith p s = true -> s = p ++ slice_from (String.length p) s.
Proof.
  revert s; induction p as [|x p IH]; intros s H.
  - now destruct s.
  - destruct s as [|y s]; simpl in H; [discriminate|].
    apply andb_prop in H as [Hxy Hp].
    apply Ascii.eqb_eq in Hxy; subst y.
    simpl; f_equal; now apply IH.
Qed.

(** A pattern of one character only looks at the first character. *)
Lemma startswith_one_app (x y : ascii) (p r1 r2 : string) :
  startswith (String x "") (p ++ String y r1)
  = startswith (String x "") (p ++ String y r2).
Proof. destruct p; reflexivity. Qed.

Lemma mem_app (a : ascii) (s t : string) : mem a (s ++ t) = mem a s || mem a t.
Proof.
  induction s as [|x s IH]; simpl; [reflexivity|].
  now rewrite IH, orb_assoc.
Qed.

Lemma contains_app_r (p s t : string) :
  contains p (s ++ t) = false -> contains p t = false.
Proof.
  induction s as [|x s IH]; simpl; intros H; [exact H|].
  apply orb_false_elim in H as [_ H]; auto.
Qed.

(** A pattern whose first character is absent does not occur. *)
Lemma contains_absent (x : ascii) (p s : string) :
  mem x s = false -> contains (String x p) s = false.
Proof.
  induction s as [|y s IH]; simpl; intros H; [reflexivity|].
  apply orb_false_elim in H as [Hxy Hs].
  rewrite Hxy; simpl; auto.
Qed.

End StringFacts.

(** ** [re.sub]: the fuel is enough, and what a span becomes *)

Section SubFacts.

Variables o1 o2 c1 c2 : ascii.
Variable repl : string -> string.

Local Notation "'OPEN'" := (Re.delimiter o1 o2).
Local Notation "'CLOSE'" := (Re.delimiter c1 c2).

Lemma lazy_group_inv (s g r : string) :
  Re.lazy_group CLOSE s = Some (g, r) -> s = g ++ CLOSE ++ r.
Proof.
  revert g; induction s as [|a s IH]; intros g H.
  - discriminate.
  - cbn [Re.lazy_group] in H.
    destruct (startswith CLOSE (String a s)) eqn:E.
    + injection H as <- <-.
      now apply startswith_inv in E.
    + destruct (Ascii.eqb a "010"); [discriminate|].
      destruct (Re.lazy_group CLOSE s) as [[g' r']|]; [|discriminate].
      injection H as <- <-.
      simpl; f_equal; now apply IH.
Qed.

Lemma match_at_inv (s g r : string) :
  Re.match_at OPEN CLOSE s = Some (g, r) ->
  s = OPEN ++ g ++ CLOSE ++ r.
Proof.
  unfold Re.match_at; intros H.
  destruct (startswith OPEN s) eqn:E; [|discriminate].
  apply startswith_inv in E; apply lazy_group_inv in H.
  now rewrite E at 1; rewrite H.
Qed.

Lemma match_at_shorter (s g r : string) :
  Re.match_at OPEN CLOSE s = Some (g, r) ->
  String.length r < String.length s.
Proof.
  intros H; apply match_at_inv in H; subst s.
  rewrite !str_length_app; simpl; lia.
Qed.

Lemma sub_fuel_enough (n m : nat) (s : string) :
  String.length s <= n -> String.length s <= m ->
  Re.sub_fuel n OPEN CLOSE repl s = Re.sub_fuel m OPEN CLOSE repl s.
Proof.
  revert m s; induction n as [|n IH]; intros m s Hn Hm.
  - destruct s; [|simpl in Hn; lia].
    destruct m; reflexivity.
  - destruct m as [|m].
    + destruct s; [reflexivity | simpl in Hm; lia].
    + cbn [Re.sub_fuel].
      destruct (Re.match_at OPEN CLOSE s) as [[g r]|] eqn:E.
      * apply match_at_shorter in E.
        f_equal; apply IH; lia.
      * destruct s as [|a s]; [reflexivity|].
        simpl in Hn, Hm; f_equal; apply IH; lia.
Qed.

(** The loop of [re.sub], without fuel. *)
Lemma sub_equation (s : string) :
  Re.sub OPEN CLOSE repl s =
  match Re.match_at OPEN CLOSE s with
  | Some (g, rest) => repl g ++ Re.sub OPEN CLOSE repl rest
  | None =>
      match s with
      | EmptyString => EmptyString
      | String a s' => String a (Re.sub OPEN CLOSE repl s')
      end
  end.
Proof.
  unfold Re.sub.
  destruct s as [|a s]; [reflexivity|].
  cbn [String.length Re.sub_fuel].
  destruct (Re.match_at OPEN CLOSE (String a s)) as [[g r]|] eqn:E.
  - apply match_at_shorter in E; simpl in E.
    f_equal; apply sub_fuel_enough; lia.
  - reflexivity.
Qed.

(** A line without the OPEN delimiter is left as it is. *)
Lemma sub_no_opening (s : string) :
  contains OPEN s = false -> Re.sub OPEN CLOSE repl s = s.
Proof.
  induction s as [|a s IH]; intros H; rewrite sub_equation.
  - reflexivity.
  - cbn [contains] in H. apply orb_false_elim in H as [H1 H2].
    unfold Re.match_at; rewrite H1.
    f_equal; auto.
Qed.

(** The text before the first OPEN delimiter is copied. *)
Lemma sub_copy_before (pre rest : string) :
  contains OPEN (pre ++ String o1 "") = false ->
  Re.sub OPEN CLOSE repl (pre ++ String o1 rest)
  = pre ++ Re.sub OPEN CLOSE repl (String o1 rest).
Proof.
  induction pre as [|a pre IH]; intros H; [reflexivity|].
  cbn [append contains] in H |- *.
  apply orb_false_elim in H as [H1 H2].
  rewrite sub_equation.
  unfold Re.match_at.
  replace (startswith OPEN (String a (pre ++ String o1 rest))) with false.
  - f_equal; auto.
  - rewrite <- H1. unfold Re.delimiter. cbn [startswith].
    f_equal. apply startswith_one_app.
Qed.

(** The lazy group stops at the first CLOSE delimiter. *)
Lemma lazy_group_first (content post : string) :
  mem "010" content = false ->
  contains CLOSE (content ++ String c1 "") = false ->
  Re.lazy_group CLOSE (content ++ CLOSE ++ post) = Some (content, post).
Proof.
  induction content as [|a ct IH]; intros Hnl Hc.
  - cbn [append]. unfold Re.delimiter at 2.
    cbn [append Re.lazy_group].
    change (String c1 (String c2 post)) with (CLOSE ++ post).
    now rewrite startswith_app, slice_from_app.
  - cbn [append contains mem] in Hnl, Hc |- *.
    apply orb_false_elim in Hnl as [Hn1 Hn2].
    apply orb_false_elim in Hc as [Hc1 Hc2].
    cbn [Re.lazy_group].
    replace (startswith CLOSE (String a (ct ++ CLOSE ++ post))) with false.
    + rewrite Ascii.eqb_sym in Hn1.
      rewrite Hn1, IH by assumption. reflexivity.
    + rewrite <- Hc1. unfold Re.delimiter. cbn [startswith append].
      f_equal. apply startswith_one_app.
Qed.

(** The first span of a line: the text before it is copied, the span
    becomes the replacement of its content, and the scan goes on behind
    it. *)
Lemma sub_first_span (pre content post : string) :
  contains OPEN (pre ++ String o1 "") = false ->
  mem "010" content = false ->
  contains CLOSE (content ++ String c1 "") = false ->
  Re.sub OPEN CLOSE repl (pre ++ OPEN ++ content ++ CLOSE ++ post)
  = pre ++ repl content ++ Re.sub OPEN CLOSE repl post.
Proof.
  intros Hpre Hnl Hc.
  change (pre ++ OPEN ++ content ++ CLOSE ++ post)
    with (pre ++ String o1 (String o2 (content ++ CLOSE ++ post))).
  rewrite sub_copy_before by assumption.
  f_equal.
  rewrite sub_equation. unfold Re.match_at.
  change (String o1 (String o2 (content ++ CLOSE ++ post)))
    with (OPEN ++ content ++ CLOSE ++ post).
  rewrite startswith_app, slice_from_app, lazy_group_first by assumption.
  reflexivity.
Qed.

End SubFacts.

(** ** The digest is 32 lowercase hexadecimal characters *)

Section DigestFacts.

Lemma all_in_mem (chars s : string) (a : ascii) :
  all_in chars s = true -> mem a chars = false -> mem a s = false.
Proof.
  induction s as [|b s IH]; simpl; intros H Ha; [reflexivity|].
  apply andb_prop in H as [Hb Hs].
  rewrite IH by assumption.
  destruct (Ascii.eqb_spec a b) as [->|]; [congruence | reflexivity].
Qed.

Lemma hex_digit_lower (n : N) :
  mem (MD5.hex_digit (n mod 16)) lower_hex = true.
Proof.
  assert (H : N.to_nat (n mod 16) < 16).
  { pose proof (N.mod_lt n 16). lia. }
  unfold MD5.hex_digit.
  revert H; generalize (N.to_nat (n mod 16)); intros k H.
  do 16 (destruct k as [|k]; [reflexivity|]).
  lia.
Qed.

Lemma hex_length (bs : list N) :
  String.length (MD5.hex bs) = 2 * List.length bs.
Proof. induction bs as [|b bs IH]; simpl; [reflexivity | rewrite IH; lia]. Qed.

Lemma hex_lower (bs : list N) : all_in lower_hex (MD5.hex bs) = true.
Proof.
  induction bs as [|b bs IH]; [reflexivity|].
  cbn [MD5.hex all_in].
  now rewrite !hex_digit_lower, IH.
Qed.

Lemma digest_length (msg : list N) : List.length (MD5.digest msg) = 16.
Proof.
  unfold MD5.digest, MD5.bytes_le.
  now rewrite !length_app, !length_map, !length_seq.
Qed.

Lemma md5_hash_length (content : string) :
  String.length (md5_hash content) = 32.
Proof.
  unfold md5_hash, MD5.hexdigest.
  now rewrite hex_length, digest_length.
Qed.

Lemma md5_hash_lower (content : string) :
  all_in lower_hex (md5_hash content) = true.
Proof. apply hex_lower. Qed.

End DigestFacts.

(** ** Spans in the middle of a line *)

Section SpanFacts.

Variables o1 o2 c1 c2 : ascii.
Variable repl : string -> string.

Local Notation "'OPEN'" := (Re.delimiter o1 o2).
Local Notation "'CLOSE'" := (Re.delimiter c1 c2).

Lemma str_app_assoc (a b c : string) : (a ++ b) ++ c = a ++ (b ++ c).
Proof. induction a as [|x a IH]; simpl; [reflexivity | now rewrite IH]. Qed.

(** A text in which no opening delimiter starts, whatever follows it, is
    copied, and the scan goes on behind it. *)
Lemma sub_copy_prefix (u rest : string) :
  contains OPEN (u ++ String o2 "") = false ->
  Re.sub OPEN CLOSE repl (u ++ rest) = u ++ Re.sub OPEN CLOSE repl rest.
Proof.
  induction u as [|a u IH]; intros H; [reflexivity|].
  cbn [append contains] in H.
  apply orb_false_elim in H as [H1 H2].
  cbn [append]. rewrite sub_equation. unfold Re.match_at.
  replace (startswith OPEN (String a (u ++ rest))) with false.
  - f_equal. now apply IH.
  - symmetry. clear IH H2.
    unfold Re.delimiter in H1 |- *. cbn [startswith] in H1 |- *.
    destruct u as [|b u]; cbn [append startswith] in H1 |- *; [|exact H1].
    rewrite Ascii.eqb_refl in H1. cbn [andb] in H1.
    rewrite andb_true_r in H1. now rewrite H1.
Qed.

End SpanFacts.

Section ParenFacts.

(** Behind a text without [((], a text without parenthesis that is not
    empty keeps every [((] away. *)
Lemma no_double_after (o : ascii) (pre d : string) :
  contains (Re.delimiter o o) pre = false ->
  mem o d = false ->
  d <> "" ->
  contains (Re.delimiter o o) ((pre ++ d) ++ String o "") = false.
Proof.
  intros Hpre Hd Hne.
  assert (Hlast : forall t, mem o t = false ->
                       contains (Re.delimiter o o) (t ++ String o "") = false).
  { induction t as [|a t IHt]; intros Ht.
    - cbn. now rewrite andb_false_r.
    - cbn [mem] in Ht. apply orb_false_elim in Ht as [Ha Ht].
      cbn [append contains]. rewrite (IHt Ht), orb_false_r.
      unfold Re.delimiter. cbn [startswith]. now rewrite Ha. }
  induction pre as [|b pre IH]; [now apply Hlast|].
  cbn [contains] in Hpre. apply orb_false_elim in Hpre as [H1 H2].
  cbn [append contains]. rewrite (IH H2), orb_false_r.
  unfold Re.delimiter in H1 |- *. cbn [startswith] in H1 |- *.
  destruct pre as [|c pre]; [|exact H1].
  destruct d as [|a d]; [contradiction|].
  cbn [mem] in Hd. apply orb_false_elim in Hd as [Ha _].
  cbn [append startswith]. rewrite Ha. cbn [andb]. apply andb_false_r.
Qed.

Lemma remove_character_steps (line : string) :
  remove_character line = paren_rewrite (hash_rewrite line).
Proof. reflexivity. Qed.

Lemma md5_hash_not_empty (content : string) : md5_hash content <> "".
Proof.
  intros E. pose proof (md5_hash_length content) as H.
  rewrite E in H. discriminate.
Qed.

End ParenFacts.

(** * The inline rewriter *)

(** C6, as the script has it: a span ((CONTENT)) of the line as the
    hash rewrite leaves it is replaced by CONTENT without its letters c
    and C, every other character kept; the text before the span is copied
    and the text behind it is rewritten in turn.  The span is the one the
    scan meets first: no double parenthesis opens before it, CONTENT
    holds no line feed, and its closing delimiter is the first one behind
    the opening.  This is the result of [remove_character]; the inline
    rewriter then applies the bold and emphasis rewrites to it. *)
Theorem paren_span_drops_c (line pre content post : string) :
  hash_rewrite line = pre ++ "((" ++ content ++ "))" ++ post ->
  contains "((" (pre ++ "(") = false ->
  mem "010" content = false ->
  contains "))" (content ++ ")") = false ->
  remove_character line
  = pre ++ remove_char "C" (remove_char "c" content) ++ paren_rewrite post
  /\ inline_rewrite line
     = process_inline_formatting
         (pre ++ remove_char "C" (remove_char "c" content)
              ++ paren_rewrite post).
Proof.
  intros Hline Hpre Hnl Hclose.
  assert (E : remove_character line
              = pre ++ remove_char "C" (remove_char "c" content)
                    ++ paren_rewrite post).
  { rewrite remove_character_steps, Hline. unfold paren_rewrite.
    apply (sub_first_span "(" "(" ")" ")"
             (fun group1 => remove_char "C" (remove_char "c" group1)));
      assumption. }
  split; [exact E|].
  unfold inline_rewrite. now rewrite E.
Qed.

Lemma paren_span_drops_c_witness :
  inline_rewrite "((Cool))" = "ool"
  /\ remove_character "say ((Cool c)) ((ice))" = "say ool  ie"
  /\ remove_character "((Cool)) [[" = "ool [["
  /\ remove_character "[[x ((Cool))" = "[[x ool"
  /\ remove_character "[[a]] ((Cool))"
     = "0cc175b9c0f1b6a831c399e269772661 ool".
Proof.
  split; [|split; [|split; [|split]]].
  - apply (paren_span_drops_c "((Cool))" "" "Cool" ""); reflexivity.
  - apply (paren_span_drops_c "say ((Cool c)) ((ice))"
             "say " "Cool c" " ((ice))"); reflexivity.
  - apply (paren_span_drops_c "((Cool)) [[" "" "Cool" " [["); reflexivity.
  - apply (paren_span_drops_c "[[x ((Cool))" "[[x " "Cool" ""); reflexivity.
  - apply (paren_span_drops_c "[[a]] ((Cool))"
             "0cc175b9c0f1b6a831c399e269772661 " "Cool" "");
      vm_compute; reflexivity.
Defined.

(** C6, the sentence as the specification words it, fails where CONTENT
    holds a hash directive: the hash rewrite runs first, and the span
    becomes the digest.  It fails too where CONTENT holds a bold span: the
    inline rewriter rewrites it afterwards. *)
Lemma paren_span_after_hash :
  remove_character "(([[c]]))" = "4a8a08f09d37b73795649038408b5f33"
  /\ remove_character "(([[c]]))" <> remove_char "C" (remove_char "c" "[[c]]")
  /\ inline_rewrite "(([[c]]))" = "4a8a08f09d37b73795649038408b5f33"
  /\ inline_rewrite "((a**b**))" = "a<b>b</b>"
  /\ inline_rewrite "((a**b**))" <> remove_char "C" (remove_char "c" "a**b**").
Proof.
  repeat split; vm_compute; (reflexivity || discriminate).
Qed.

(** C7, as the script has it: a span of double square brackets around
    CONTENT is replaced by the MD5 digest of CONTENT, a function of CONTENT
    alone that is 32 lowercase hexadecimal characters long; the text before
    the span is copied and the text behind it is rewritten in turn.  The
    span is the one the scan meets first: no double bracket opens before
    it, CONTENT holds no line feed, and its closing delimiter is the first
    one behind the opening.  Where no double parenthesis stands before the
    span, the digest stands as it is in the result of [remove_character].
    Nothing is said of the digests of different contents. *)
Theorem hash_span_digest (pre content post : string) :
  contains "[[" (pre ++ "[") = false ->
  mem "010" content = false ->
  contains "]]" (content ++ "]") = false ->
  hash_rewrite (pre ++ "[[" ++ content ++ "]]" ++ post)
  = pre ++ md5_hash content ++ hash_rewrite post
  /\ String.length (md5_hash content) = 32
  /\ all_in "0123456789abcdef" (md5_hash content) = true
  /\ (forall line, remove_character line = paren_rewrite (hash_rewrite line))
  /\ (contains "((" pre = false ->
      remove_character (pre ++ "[[" ++ content ++ "]]" ++ post)
      = pre ++ md5_hash content ++ remove_character post).
Proof.
  intros Hpre Hnl Hclose.
  assert (E : hash_rewrite (pre ++ "[[" ++ content ++ "]]" ++ post)
              = pre ++ md5_hash content ++ hash_rewrite post).
  { unfold hash_rewrite.
    apply (sub_first_span "[" "[" "]" "]" (fun group1 => md5_hash group1));
      assumption. }
  split; [exact E|].
  split; [apply md5_hash_length|].
  split; [apply md5_hash_lower|].
  split; [exact remove_character_steps|].
  intros Hparen.
  rewrite !remove_character_steps, E.
  rewrite <- str_app_assoc. unfold paren_rewrite at 1.
  rewrite (sub_copy_prefix "(" "(" ")" ")").
  - now rewrite str_app_assoc.
  - apply no_double_after; [exact Hparen | | apply md5_hash_not_empty].
    now apply (all_in_mem lower_hex _ "(" (md5_hash_lower content)).
Qed.

Lemma hash_span_digest_witness :
  remove_character "f(x) [[abc]]"
  = "f(x) 900150983cd24fb0d6963f7d28e17f72"
  /\ remove_character "[[a]] and [[b]]"
     = "0cc175b9c0f1b6a831c399e269772661 and 92eb5ffee6ae2fec3ad71c777531578f"
  /\ String.length (md5_hash "abc") = 32.
Proof.
  destruct (hash_span_digest "f(x) " "abc" "" eq_refl eq_refl eq_refl)
    as (_ & Hlen & _ & _ & H1).
  destruct (hash_span_digest "" "a" " and [[b]]" eq_refl eq_refl eq_refl)
    as (_ & _ & _ & _ & H2).
  destruct (hash_span_digest " and " "b" "" eq_refl eq_refl eq_refl)
    as (_ & _ & _ & _ & H3).
  split; [|split; [|exact Hlen]].
  - refine (eq_trans (H1 eq_refl) _). vm_compute. reflexivity.
  - refine (eq_trans (H2 eq_refl) _).
    change (remove_character " and [[b]]")
      with (remove_character (" and " ++ "[[" ++ "b" ++ "]]" ++ "")).
    rewrite (H3 eq_refl). vm_compute. reflexivity.
Defined.

(** C7, the last part of the sentence fails: two different contents with
    one digest. *)
Lemma digests_collide :
  let c1 := "TEXTCOLLBYfGiJUETHQ4hAcKSMd5zYpgqf1YRDhkmxHkhPWptrkoyz28wnI9V0aHeAuaKnak" in
  let c2 := "TEXTCOLLBYfGiJUETHQ4hEcKSMd5zYpgqf1YRDhkmxHkhPWptrkoyz28wnI9V0aHeAuaKnak" in
  c1 <> c2
  /\ md5_hash c1 = "faad49866e9498fc1719f5289e7a0269"
  /\ md5_hash c2 = "faad49866e9498fc1719f5289e7a0269"
  /\ remove_character ("[[" ++ c1 ++ "]]") = remove_character ("[[" ++ c2 ++ "]]").
Proof.
  cbv zeta.
  split; [discriminate|].
  split; [vm_compute; reflexivity|].
  split; vm_compute; reflexivity.
Qed.

(** * The heading classifier *)

Section HeadingFacts.

Lemma count_char_repeat (c : ascii) (n : nat) (s : string) :
  count_char c (repeat_char c n ++ s) = n + count_char c s.
Proof.
  induction n as [|n IH]; simpl; [reflexivity|].
  now rewrite Ascii.eqb_refl, IH.
Qed.

Lemma rstrip_by_app (p : ascii -> bool) (a b : string) :
  rstrip_by p b <> "" -> rstrip_by p (a ++ b) = a ++ rstrip_by p b.
Proof.
  intros Hb; induction a as [|x a IH]; simpl; [reflexivity|].
  rewrite IH.
  destruct (a ++ rstrip_by p b) eqn:E; [|reflexivity].
  destruct a; simpl in E; [contradiction | discriminate].
Qed.

Lemma rstrip_absent (c : ascii) (s : string) :
  count_char c s = 0 -> rstrip_by (fun a => mem a (String c "")) s = s.
Proof.
  set (p := fun a => mem a (String c "")).
  induction s as [|a s IH]; cbn [rstrip_by count_char]; intros H;
    [reflexivity|].
  destruct (Ascii.eqb a c) eqn:E; [discriminate|].
  rewrite IH by exact H.
  destruct s; [|reflexivity].
  unfold p; simpl; now rewrite E.
Qed.

Lemma lstrip_repeat (c d : ascii) (n : nat) (s : string) :
  Ascii.eqb d c = false ->
  lstrip_by (fun a => mem a (String c "")) (repeat_char c n ++ String d s)
  = String d s.
Proof.
  intros H; induction n as [|n IH]; cbn [repeat_char append lstrip_by mem].
  - now rewrite H.
  - now rewrite Ascii.eqb_refl.
Qed.

Lemma strip_leading_space (s : string) : strip (String " " s) = strip s.
Proof.
  unfold strip, strip_by; simpl.
  destruct (rstrip_by isspace s); reflexivity.
Qed.

(** Where the title holds no [#], the level is the length of the leading
    run and the content is the trimmed title. *)
Lemma heading_of_plain_title (L : nat) (text : string) :
  count_char "#" text = 0 ->
  heading (repeat_char "#" (S L) ++ " " ++ text)
  = "<h" ++ str_of_nat (S L) ++ ">" ++ strip text
         ++ "</h" ++ str_of_nat (S L) ++ ">".
Proof.
  intros H.
  unfold heading.
  replace (startswith "#" (repeat_char "#" (S L) ++ " " ++ text)) with true
    by reflexivity.
  cbv zeta.
  rewrite count_char_repeat.
  replace (count_char "#" (" " ++ text)) with 0 by (simpl; now rewrite H).
  rewrite Nat.add_0_r.
  unfold strip_chars, strip_by.
  rewrite rstrip_by_app.
  - rewrite (rstrip_absent "#" (" " ++ text)) by (simpl; exact H).
    change (" " ++ text) with (String " " text).
    rewrite lstrip_repeat by reflexivity.
    now rewrite strip_leading_space.
  - rewrite (rstrip_absent "#" (" " ++ text)) by (simpl; exact H).
    discriminate.
Qed.

End HeadingFacts.

(** C2: the level is the number of [#] of the whole line, not the length
    of the leading run; a closing [#], which [strip] removes from the
    title, is counted. *)
Theorem heading_counts_every_hash :
  heading "# Title #" = "<h2>Title</h2>"
  /\ heading "# Issue #1" = "<h2>Issue #1</h2>".
Proof. split; reflexivity. Qed.

(** * The list tracker *)

(** C4: a line with a list marker met while a list is open gives one
    [<li>] item and leaves the state as it was, whatever the marker: after
    [- a] the line [* b] is an item of the same [<ul>]. *)
Theorem item_in_open_list_keeps_type (line : string) (list_type : option string) :
  startswith_any ["- "; "* "] line = true ->
  list_ line true list_type
  = ("<li>" ++ strip (slice_from 2 line) ++ "</li>", true, list_type).
Proof.
  intros H; unfold list_; now rewrite H.
Qed.

Lemma item_in_open_list_keeps_type_witness :
  list_ "- a" false None = ("<ul>" ++ String "010" "<li>a</li>", true, Some "ul")
  /\ list_ "* b" true (Some "ul") = ("<li>b</li>", true, Some "ul")
  /\ main ["- a"; "* b"]
     = ["<ul>" ++ String "010" "<li>a</li>"; "<li>b</li>"; "</ul>"].
Proof.
  split; [reflexivity | split; [|reflexivity]].
  exact (item_in_open_list_keeps_type "* b" (Some "ul") eq_refl).
Defined.

(** * The paragraph assembler *)

Section AssemblerFacts.

Lemma convert_step_acc (b : bool) (acc : list string) (line : string) :
  convert_step (b, acc) line
  = (step_flag b line, (acc ++ step_out b line)%list).
Proof.
  unfold step_flag, step_out, convert_step.
  destruct (startswith_any ["<h"; "</ul>"; "</ol>"] line);
    [|destruct (startswith_any ["<ul"; "<li"; "<ol"] line);
      [|destruct (String.eqb (strip line) "")]];
    destruct b; cbn [fst snd negb app];
    rewrite <- ?app_assoc, ?app_nil_r; reflexivity.
Qed.

Lemma convert_loop (lines : list string) (b : bool) (acc : list string) :
  fold_left convert_step lines (b, acc)
  = (loop_flag b lines, (acc ++ loop_out b lines)%list).
Proof.
  revert b acc; induction lines as [|line rest IH]; intros b acc;
    cbn [fold_left loop_out loop_flag].
  - now rewrite app_nil_r.
  - now rewrite convert_step_acc, IH, app_assoc.
Qed.

Lemma convert_line_loop (lines : list string) :
  convert_line lines
  = (loop_out false lines
       ++ (if loop_flag false lines then ["</p>"] else []))%list.
Proof.
  unfold convert_line; rewrite convert_loop; simpl.
  destruct (loop_flag false lines); [reflexivity | now rewrite app_nil_r].
Qed.

Lemma loop_flag_app (b : bool) (l1 l2 : list string) :
  loop_flag b (l1 ++ l2) = loop_flag (loop_flag b l1) l2.
Proof.
  revert b; induction l1 as [|x l1 IH]; intros b; simpl; [reflexivity|].
  apply IH.
Qed.

(** The two kinds of marker lines exclude each other. *)
Lemma opening_not_closing (line : string) :
  startswith_any ["<ul"; "<li"; "<ol"] line = true ->
  startswith_any ["<h"; "</ul>"; "</ol>"] line = false.
Proof.
  unfold startswith_any at 1; cbn [existsb]; intros H.
  repeat (apply orb_true_elim in H as [H|H]); try discriminate;
    apply startswith_ex in H as [r ->]; reflexivity.
Qed.

Lemma step_opening (b : bool) (line : string) :
  startswith_any ["<ul"; "<li"; "<ol"] line = true ->
  convert_step (b, []) line = (false, [line]).
Proof.
  intros H; unfold convert_step.
  rewrite (opening_not_closing line H), H.
  now destruct b.
Qed.

Lemma step_closing (b : bool) (line : string) :
  startswith_any ["<h"; "</ul>"; "</ol>"] line = true ->
  convert_step (b, []) line
  = (false, if b then ["</p>"; line] else [line]).
Proof.
  intros H; unfold convert_step; rewrite H.
  now destruct b.
Qed.

End AssemblerFacts.

(** C5: while a paragraph is open, a line that starts with [<ul], [<li] or
    [<ol] clears the flag and is appended alone, no [</p>] before it; a
    line that starts with [<h], [</ul>] or [</ol>] is appended after a
    [</p>]. *)
Theorem marker_lines_in_open_paragraph (line : string) (html_lines : list string) :
  (startswith_any ["<ul"; "<li"; "<ol"] line = true ->
   convert_step (true, html_lines) line = (false, (html_lines ++ [line])%list))
  /\ (startswith_any ["<h"; "</ul>"; "</ol>"] line = true ->
      convert_step (true, html_lines) line
      = (false, (html_lines ++ ["</p>"; line])%list)).
Proof.
  split; intros H; rewrite convert_step_acc; unfold step_flag, step_out.
  - now rewrite step_opening.
  - now rewrite step_closing.
Qed.

Lemma marker_lines_in_open_paragraph_witness :
  convert_step (true, ["<p>"; "text"]) "<li>a</li>"
  = (false, ["<p>"; "text"; "<li>a</li>"])
  /\ convert_step (true, ["<p>"; "text"]) "</ul>after"
     = (false, ["<p>"; "text"; "</p>"; "</ul>after"]).
Proof.
  split.
  - exact (proj1 (marker_lines_in_open_paragraph "<li>a</li>" ["<p>"; "text"])
                 eq_refl).
  - exact (proj2 (marker_lines_in_open_paragraph "</ul>after" ["<p>"; "text"])
                 eq_refl).
Defined.

(** ** [</p>] lines against [<p>] lines *)

Section ParagraphTags.

Lemma closes_within_nil (k : nat) : closes_within k [].
Proof. intros n; rewrite firstn_nil; simpl; lia. Qed.

Lemma closes_within_weaken (k k' : nat) (out : list string) :
  k <= k' -> closes_within k out -> closes_within k' out.
Proof. intros Hk H n; specialize (H n); lia. Qed.

Lemma closes_within_other (k : nat) (a : string) (out : list string) :
  a <> "</p>" -> closes_within k out -> closes_within k (a :: out).
Proof.
  intros Ha H [|n]; [simpl; lia|].
  specialize (H n); rewrite firstn_cons.
  rewrite count_occ_cons_neq by exact Ha.
  destruct (string_dec a "<p>") as [E|E].
  - rewrite (count_occ_cons_eq _ _ E); lia.
  - rewrite (count_occ_cons_neq _ _ E); lia.
Qed.

Lemma closes_within_close (k : nat) (out : list string) :
  closes_within k out -> closes_within (S k) ("</p>" :: out).
Proof.
  intros H [|n]; [simpl; lia|].
  specialize (H n); rewrite firstn_cons.
  rewrite count_occ_cons_eq by reflexivity.
  rewrite count_occ_cons_neq by discriminate.
  lia.
Qed.

Lemma closes_within_open (k : nat) (out : list string) :
  closes_within (S k) out -> closes_within k ("<p>" :: out).
Proof.
  intros H [|n]; [simpl; lia|].
  specialize (H n); rewrite firstn_cons.
  rewrite count_occ_cons_neq by discriminate.
  rewrite count_occ_cons_eq by reflexivity.
  lia.
Qed.

(** The six ways a turn of the loop can go. *)
Lemma step_cases (b : bool) (line : string) :
  convert_step (b, []) line = (false, [line])
  \/ (b = true /\ convert_step (b, []) line = (false, ["</p>"; line]))
  \/ (b = false /\ convert_step (b, []) line = (false, []))
  \/ (b = true /\ convert_step (b, []) line = (false, ["</p>"]))
  \/ (b = false /\ convert_step (b, []) line = (true, ["<p>"; line]))
  \/ (b = true /\ convert_step (b, []) line = (true, ["<br />"; line])).
Proof.
  unfold convert_step.
  destruct (startswith_any ["<h"; "</ul>"; "</ol>"] line);
    [|destruct (startswith_any ["<ul"; "<li"; "<ol"] line);
      [|destruct (String.eqb (strip line) "")]];
    destruct b; cbn [negb app]; tauto.
Qed.

Lemma assembled_closes_within (lines : list string) (b : bool) :
  ~ In "</p>" lines ->
  closes_within (if b then 1 else 0)
    (loop_out b lines ++ (if loop_flag b lines then ["</p>"] else []))%list.
Proof.
  revert b; induction lines as [|line rest IH]; intros b Hin.
  - cbn [loop_out loop_flag app].
    destruct b; [apply closes_within_close|]; apply closes_within_nil.
  - assert (Hline : line <> "</p>") by (intros ->; apply Hin; now left).
    assert (Hrest : ~ In "</p>" rest) by (intros H; apply Hin; now right).
    cbn [loop_out loop_flag]; rewrite <- app_assoc.
    unfold step_out, step_flag.
    destruct (step_cases b line)
      as [E|[[-> E]|[[-> E]|[[-> E]|[[-> E]|[-> E]]]]]];
      rewrite E; cbn [fst snd app].
    + apply closes_within_other; [exact Hline|].
      apply (closes_within_weaken 0); [lia|]. apply (IH false Hrest).
    + apply closes_within_close, closes_within_other; [exact Hline|].
      apply (IH false Hrest).
    + apply (IH false Hrest).
    + apply closes_within_close. apply (IH false Hrest).
    + apply closes_within_open, closes_within_other; [exact Hline|].
      apply (IH true Hrest).
    + apply closes_within_other; [discriminate|].
      apply closes_within_other; [exact Hline|].
      apply (IH true Hrest).
Qed.

End ParagraphTags.

(** C10, as the script has it: where no line of the input is itself
    [</p>], no prefix of the output holds more [</p>] lines than [<p>]
    lines; and a [<p>] stays open for good when the text is followed by a
    line that starts with [<ul], [<li] or [<ol]. *)
Theorem paragraph_close_needs_open :
  (forall (lines : list string) (n : nat),
      ~ In "</p>" lines ->
      count_occ string_dec (firstn n (convert_line lines)) "</p>"
      <= count_occ string_dec (firstn n (convert_line lines)) "<p>")
  /\ (forall text marker : string,
         startswith_any ["<h"; "</ul>"; "</ol>"] text = false ->
         startswith_any ["<ul"; "<li"; "<ol"] text = false ->
         strip text <> "" ->
         startswith_any ["<ul"; "<li"; "<ol"] marker = true ->
         convert_line [text; marker] = ["<p>"; text; marker]).
Proof.
  split.
  - intros lines n Hin.
    rewrite convert_line_loop.
    exact (assembled_closes_within lines false Hin n).
  - intros text marker H1 H2 H3 Hm.
    apply String.eqb_neq in H3.
    assert (E : convert_step (false, []) text = (true, ["<p>"; text])).
    { unfold convert_step; now rewrite H1, H2, H3. }
    unfold convert_line; cbn [fold_left].
    rewrite E, convert_step_acc.
    unfold step_flag, step_out.
    now rewrite (step_opening true marker Hm).
Qed.

Lemma paragraph_close_needs_open_witness :
  (forall n,
      count_occ string_dec
        (firstn n (convert_line ["one"; "two"; ""; "<h1>t</h1>"; "three"])) "</p>"
      <= count_occ string_dec
           (firstn n (convert_line ["one"; "two"; ""; "<h1>t</h1>"; "three"])) "<p>")
  /\ convert_line ["text"; "<li>a</li>"] = ["<p>"; "text"; "<li>a</li>"].
Proof.
  split.
  - intros n. apply (proj1 paragraph_close_needs_open).
    simpl; intuition discriminate.
  - apply (proj2 paragraph_close_needs_open);
      [reflexivity | reflexivity | discriminate | reflexivity].
Defined.

(** C10, the count as the specification words it fails on a line of text
    that is itself [</p>]. *)
Lemma literal_close_line_is_counted :
  convert_line ["</p>"] = ["<p>"; "</p>"; "</p>"]
  /\ count_occ string_dec (firstn 3 (convert_line ["</p>"])) "<p>"
     < count_occ string_dec (firstn 3 (convert_line ["</p>"])) "</p>".
Proof. split; [reflexivity | vm_compute; lia]. Qed.

(** * The pipeline *)

(** C1: the scenario of the specification. *)
Theorem pipeline_scenario :
  main ["# Title"; ""; "Hello **world**"; "More __text__"]
  = ["<h1>Title</h1>"; "<p>"; "Hello <b>world</b>"; "<br />";
     "More <em>text</em>"; "</p>"].
Proof. vm_compute. reflexivity. Qed.

(** ** List blocks in the pipeline *)

Section ListBlocks.

Lemma main_step_item_closed (acc : list string) (lt : option string) (x : string) :
  is_item (list_input x) = true ->
  main_step (acc, false, lt) x
  = ((acc ++ [opening_line (list_input x)])%list, true,
     Some (tag_of (list_input x))).
Proof.
  intros H. unfold main_step, list_. fold (list_input x).
  unfold is_item in H. now rewrite H.
Qed.

Lemma main_step_item_open (acc : list string) (lt : option string) (x : string) :
  is_item (list_input x) = true ->
  main_step (acc, true, lt) x = ((acc ++ [item (list_input x)])%list, true, lt).
Proof.
  intros H. unfold main_step, list_. fold (list_input x).
  unfold is_item in H. now rewrite H.
Qed.

Lemma main_step_text_open (acc : list string) (lt : option string) (y : string) :
  is_item (list_input y) = false ->
  main_step (acc, true, lt) y
  = ((acc ++ [closing_line lt (list_input y)])%list, false, None).
Proof.
  intros H. unfold main_step, list_. fold (list_input y).
  unfold is_item in H. now rewrite H.
Qed.

Lemma main_step_text_closed (acc : list string) (lt : option string) (y : string) :
  is_item (list_input y) = false ->
  main_step (acc, false, lt) y = ((acc ++ [list_input y])%list, false, lt).
Proof.
  intros H. unfold main_step, list_. fold (list_input y).
  unfold is_item in H. now rewrite H.
Qed.

(** A run of items inside an open list. *)
Lemma main_loop_items (items acc : list string) (lt : option string) :
  forallb (fun l => is_item (list_input l)) items = true ->
  fold_left main_step items (acc, true, lt)
  = ((acc ++ map (fun l => item (list_input l)) items)%list, true, lt).
Proof.
  revert acc; induction items as [|x items IH]; intros acc H;
    cbn [fold_left map].
  - now rewrite app_nil_r.
  - cbn [forallb] in H. apply andb_prop in H as [Hx Hitems].
    rewrite main_step_item_open by exact Hx.
    rewrite IH by exact Hitems.
    now rewrite <- app_assoc.
Qed.

(** While a list is open its type is [ul] or [ol], and the assembler,
    run on the lines produced so far, is outside any paragraph. *)
Lemma open_list_invariant (before out : list string) (lt : option string) :
  fold_left main_step before ([], false, None) = (out, true, lt) ->
  (lt = Some "ul" \/ lt = Some "ol") /\ loop_flag false out = false.
Proof.
  revert out lt; induction before as [|z before IH] using rev_ind;
    intros out lt H.
  - discriminate.
  - rewrite fold_left_app in H. cbn [fold_left] in H.
    destruct (fold_left main_step before ([], false, None))
      as [[out0 il0] lt0].
    destruct (is_item (list_input z)) eqn:Ez; destruct il0.
    + rewrite main_step_item_open in H by exact Ez.
      injection H as <- <-.
      destruct (IH out0 lt0 eq_refl) as [Hlt _].
      split; [exact Hlt|].
      rewrite loop_flag_app. cbn [loop_flag]. unfold step_flag.
      now rewrite step_opening.
    + rewrite main_step_item_closed in H by exact Ez.
      injection H as <- <-.
      unfold opening_line, tag_of.
      split; [destruct (startswith "- " (list_input z)); auto|].
      rewrite loop_flag_app. cbn [loop_flag]. unfold step_flag.
      rewrite step_opening; [reflexivity|].
      now destruct (startswith "- " (list_input z)).
    + rewrite main_step_text_open in H by exact Ez. discriminate.
    + rewrite main_step_text_closed in H by exact Ez. discriminate.
Qed.

(** A line without Markdown reaches [list] as it is, and is no item. *)
Lemma no_markdown_untouched (line : string) :
  no_markdown line = true -> list_input line = line.
Proof.
  unfold no_markdown; intros H.
  repeat (apply andb_prop in H as [H ?]).
  repeat match goal with
         | E : negb _ = true |- _ => apply negb_true_iff in E
         end.
  unfold list_input, remove_character, process_inline_formatting.
  rewrite (sub_no_opening "[" "[" "]" "]") by assumption.
  rewrite (sub_no_opening "(" "(" ")" ")") by assumption.
  rewrite (sub_no_opening "*" "*" "*" "*") by assumption.
  rewrite (sub_no_opening "_" "_" "_" "_") by assumption.
  unfold heading.
  match goal with E : startswith "#" line = false |- _ => now rewrite E end.
Qed.

Lemma no_markdown_not_item (line : string) :
  no_markdown line = true -> is_item line = false.
Proof.
  unfold no_markdown, is_item; intros H.
  apply andb_prop in H as [_ H]. now apply negb_true_iff in H.
Qed.

End ListBlocks.

(** C8: a line of plain text, alone, comes out between [<p>] and [</p>].
    Plain text is what the loop sends to its last branch: a line that
    starts with none of the six markers and is not blank.  Where the line
    holds no Markdown either, the whole pipeline writes these three
    lines. *)
Theorem single_text_line_is_wrapped (L : string) :
  startswith_any ["<h"; "</ul>"; "</ol>"] L = false ->
  startswith_any ["<ul"; "<li"; "<ol"] L = false ->
  strip L <> "" ->
  convert_line [L] = ["<p>"; L; "</p>"]
  /\ (no_markdown L = true -> main [L] = ["<p>"; L; "</p>"]).
Proof.
  intros H1 H2 H3.
  assert (Hconv : convert_line [L] = ["<p>"; L; "</p>"]).
  { apply String.eqb_neq in H3.
    unfold convert_line; cbn [fold_left]; unfold convert_step.
    now rewrite H1, H2, H3. }
  split; [exact Hconv|].
  intros Hmd.
  pose proof (no_markdown_not_item L Hmd) as Hitem.
  pose proof (no_markdown_untouched L Hmd) as Hsame.
  unfold main; cbn [fold_left].
  rewrite main_step_text_closed by (rewrite Hsame; exact Hitem).
  rewrite Hsame; cbn [app].
  now rewrite Hconv.
Qed.

Lemma single_text_line_is_wrapped_witness :
  convert_line ["Hello world"] = ["<p>"; "Hello world"; "</p>"]
  /\ main ["Hello world"] = ["<p>"; "Hello world"; "</p>"].
Proof.
  destruct (single_text_line_is_wrapped "Hello world") as [Hconv Hmain];
    [reflexivity | reflexivity | discriminate |].
  split; [exact Hconv | exact (Hmain eq_refl)].
Defined.


(** ** Every list closed once *)

Section ClosedOnce.

(** What a turn of the loop of [__main__] appends does not depend on the
    lines before. *)
Lemma main_step_eq (acc : list string) (il : bool) (lt : option string)
      (x : string) :
  main_step (acc, il, lt) x
  = ((acc ++ [fst (fst (list_ (list_input x) il lt))])%list,
     snd (fst (list_ (list_input x) il lt)),
     snd (list_ (list_input x) il lt)).
Proof.
  unfold main_step. fold (list_input x).
  now destruct (list_ (list_input x) il lt) as [[p il'] lt'].
Qed.

Lemma main_loop_acc (lines acc : list string) (il : bool) (lt : option string) :
  fold_left main_step lines (acc, il, lt)
  = ((acc ++ fst (fst (fold_left main_step lines ([], il, lt))))%list,
     snd (fst (fold_left main_step lines ([], il, lt))),
     snd (fold_left main_step lines ([], il, lt))).
Proof.
  induction lines as [|x lines IH] using rev_ind.
  - cbn [fold_left fst snd]. now rewrite app_nil_r.
  - rewrite !fold_left_app. cbn [fold_left]. rewrite IH.
    destruct (fold_left main_step lines ([], il, lt)) as [[p il'] lt'].
    cbn [fst snd]. rewrite !main_step_eq. cbn [fst snd].
    now rewrite <- app_assoc.
Qed.

Lemma main_eq (lines : list string) :
  main lines
  = (convert_line (fst (fst (fold_left main_step lines ([], false, None))))
       ++ (if snd (fst (fold_left main_step lines ([], false, None)))
           then [closing_tag (snd (fold_left main_step lines ([], false, None)))]
           else []))%list.
Proof.
  unfold main.
  now destruct (fold_left main_step lines ([], false, None)) as [[p il] lt].
Qed.

Lemma tag_step_failed (lines : list string) :
  fold_left tag_step lines None = None.
Proof. induction lines as [|x lines IH]; [reflexivity | exact IH]. Qed.

(** A line that starts with a list tag is a marker of [convert_line]. *)
Lemma list_tag_is_marker (x : string) :
  is_list_tag x = true ->
  startswith_any ["<h"; "</ul>"; "</ol>"] x = true
  \/ startswith_any ["<ul"; "<li"; "<ol"] x = true.
Proof.
  unfold is_list_tag, startswith_any at 1; cbn [existsb]; intros H.
  repeat (apply orb_true_elim in H as [H|H]); try discriminate;
    apply startswith_ex in H as [r ->]; auto.
Qed.

(** The tags [convert_line] adds and the blank lines it drops are no list
    tags: reading its output is reading its input. *)
Lemma tag_step_out (b : bool) (x : string) (st : option (option string)) :
  fold_left tag_step (step_out b x) st = tag_step st x.
Proof.
  destruct st as [o|]; [|apply tag_step_failed].
  unfold step_out, convert_step.
  destruct (startswith_any ["<h"; "</ul>"; "</ol>"] x) eqn:E1;
    [|destruct (startswith_any ["<ul"; "<li"; "<ol"] x) eqn:E2;
      [|destruct (String.eqb (strip x) "") eqn:E3]];
    destruct b; cbn [negb fst snd app fold_left]; try reflexivity.
  all: assert (Hx : is_list_tag x = false)
    by (destruct (is_list_tag x) eqn:E; [|reflexivity];
        destruct (list_tag_is_marker x E); congruence).
  all: unfold tag_step; now rewrite Hx.
Qed.

Lemma tag_step_assembled (lines : list string) (b : bool)
      (st : option (option string)) :
  fold_left tag_step
    (loop_out b lines ++ (if loop_flag b lines then ["</p>"] else []))%list st
  = fold_left tag_step lines st.
Proof.
  revert b st; induction lines as [|x lines IH]; intros b st.
  - cbn [loop_out loop_flag app]. destruct b; [|reflexivity].
    now destruct st as [o|].
  - cbn [loop_out loop_flag]. rewrite <- app_assoc, fold_left_app.
    rewrite tag_step_out. cbn [fold_left]. apply IH.
Qed.

(** Reading the lines of the loop of [__main__]: the list read as open is
    the list the loop holds open. *)
Lemma tag_step_processed (lines : list string) :
  (forall l, In l lines -> is_list_tag (list_input l) = false) ->
  let st := fold_left main_step lines ([], false, None) in
  fold_left tag_step (fst (fst st)) (Some None) = Some (snd st)
  /\ ((snd (fst st) = false /\ snd st = None)
      \/ (snd (fst st) = true /\ (snd st = Some "ul" \/ snd st = Some "ol"))).
Proof.
  induction lines as [|x lines IH] using rev_ind; intros Hall;
    [split; [reflexivity | left; split; reflexivity]|].
  cbv zeta in IH |- *.
  assert (Hx : is_list_tag (list_input x) = false)
    by (apply Hall, in_or_app; right; now left).
  destruct IH as [Hread Hstate];
    [intros l Hl; apply Hall, in_or_app; now left|].
  rewrite fold_left_app. cbn [fold_left].
  destruct (fold_left main_step lines ([], false, None)) as [[acc il] lt].
  cbn [fst snd] in Hread, Hstate.
  destruct (is_item (list_input x)) eqn:Ex;
    destruct Hstate as [[-> ->]|[-> Hlt]].
  - rewrite main_step_item_closed by exact Ex. cbn [fst snd].
    rewrite fold_left_app, Hread. cbn [fold_left].
    unfold opening_line, tag_of.
    destruct (startswith "- " (list_input x));
      (split; [reflexivity | right; split; auto]).
  - rewrite main_step_item_open by exact Ex. cbn [fst snd].
    rewrite fold_left_app, Hread. cbn [fold_left].
    split; [reflexivity | right; split; auto].
  - rewrite main_step_text_closed by exact Ex. cbn [fst snd].
    rewrite fold_left_app, Hread. cbn [fold_left].
    unfold tag_step. rewrite Hx.
    split; [reflexivity | left; split; reflexivity].
  - rewrite main_step_text_open by exact Ex. cbn [fst snd].
    rewrite fold_left_app, Hread. cbn [fold_left].
    unfold closing_line.
    destruct Hlt as [-> | ->];
      (split; [reflexivity | left; split; reflexivity]).
Qed.

Lemma main_closed_once (lines : list string) :
  (forall l, In l lines -> is_list_tag (list_input l) = false) ->
  closed_once (main lines) = true.
Proof.
  intros Hall.
  destruct (tag_step_processed lines Hall) as [Hread Hstate].
  cbv zeta in Hread, Hstate.
  unfold closed_once. rewrite main_eq, fold_left_app.
  rewrite convert_line_loop, tag_step_assembled, Hread.
  destruct (fold_left main_step lines ([], false, None)) as [[acc il] lt].
  cbn [fst snd] in Hstate |- *.
  destruct Hstate as [[-> ->]|[-> [-> | ->]]]; reflexivity.
Qed.

End ClosedOnce.

(** C3: a list opened by an item line [x] stays open over the items that
    follow, under the type [x] chose.  If the input ends there, [main]
    writes the closing tag as its last line.  If a line [y] that is not an
    item follows, the line produced for [y] is the closing tag and then
    [y], the list is closed, and what comes behind is what the rest of the
    input gives on its own: [main] writes no other closing tag for this
    list, and one at the end only if the rest leaves a list of its own
    open.  Read from the top, the list tags of the output of [main] come in
    pairs, an opening tag and then the closing tag of the same type, as
    long as no line of the input is itself a list tag. *)
Theorem opened_list_closed_once :
  (forall (before : list string) (x : string) (items out : list string)
          (list_type : option string),
      fold_left main_step before ([], false, None) = (out, false, list_type) ->
      is_item (list_input x) = true ->
      forallb (fun l => is_item (list_input l)) items = true ->
      let tag := tag_of (list_input x) in
      let block :=
        opening_line (list_input x) :: map (fun l => item (list_input l)) items in
      fold_left main_step (before ++ x :: items) ([], false, None)
      = ((out ++ block)%list, true, Some tag)
      /\ main (before ++ x :: items)
         = (convert_line (out ++ block) ++ [closing_tag (Some tag)])%list
      /\ forall (y : string) (rest processed : list string) (in_list : bool)
                (list_type' : option string),
           is_item (list_input y) = false ->
           fold_left main_step rest ([], false, None)
           = (processed, in_list, list_type') ->
           fold_left main_step (before ++ x :: items ++ y :: rest)
                     ([], false, None)
           = ((out ++ block
                   ++ closing_line (Some tag) (list_input y) :: processed)%list,
              in_list, list_type')
           /\ main (before ++ x :: items ++ y :: rest)
              = (convert_line
                   (out ++ block
                        ++ closing_line (Some tag) (list_input y) :: processed)
                   ++ (if in_list then [closing_tag list_type'] else []))%list)
  /\ (forall lines : list string,
         (forall l, In l lines -> is_list_tag (list_input l) = false) ->
         closed_once (main lines) = true).
Proof.
  split; [|exact main_closed_once].
  intros before x items out list_type Hbefore Hx Hitems tag block.
  assert (Hopen :
            forall more,
              fold_left main_step (before ++ x :: items ++ more) ([], false, None)
              = fold_left main_step more ((out ++ block)%list, true, Some tag)).
  { intros more.
    rewrite fold_left_app, Hbefore. cbn [fold_left].
    rewrite main_step_item_closed by exact Hx.
    rewrite fold_left_app, main_loop_items by exact Hitems.
    now rewrite <- app_assoc. }
  split; [|split].
  - specialize (Hopen []). now rewrite app_nil_r in Hopen.
  - unfold main.
    specialize (Hopen []). rewrite app_nil_r in Hopen. cbn [fold_left] in Hopen.
    now rewrite Hopen.
  - intros y rest processed in_list list_type' Hy Hrest.
    assert (E : fold_left main_step (before ++ x :: items ++ y :: rest)
                          ([], false, None)
                = ((out ++ block
                        ++ closing_line (Some tag) (list_input y) :: processed)%list,
                   in_list, list_type')).
    { rewrite Hopen. cbn [fold_left].
      rewrite main_step_text_open by exact Hy.
      rewrite main_loop_acc, Hrest. cbn [fst snd].
      now rewrite <- !app_assoc. }
    split; [exact E|].
    rewrite main_eq, E. reflexivity.
Qed.

Lemma opened_list_closed_once_witness :
  main ["intro"; "- a"; "* b"]
  = ["<p>"; "intro"; "<ul>" ++ String "010" "<li>a</li>"; "<li>b</li>"; "</ul>"]
  /\ main ["intro"; "- a"; "* b"; "after"]
     = ["<p>"; "intro"; "<ul>" ++ String "010" "<li>a</li>"; "<li>b</li>";
        "</ul>after"]
  /\ main ["intro"; "- a"; "* b"; "after"; "* c"]
     = ["<p>"; "intro"; "<ul>" ++ String "010" "<li>a</li>"; "<li>b</li>";
        "</ul>after"; "<ol>" ++ String "010" "<li>c</li>"; "</ol>"]
  /\ closed_once (main ["intro"; "- a"; "* b"; "after"; "* c"]) = true.
Proof.
  destruct opened_list_closed_once as [Hblock Hall].
  pose proof (Hblock ["intro"] "- a" ["* b"] ["intro"] None
                eq_refl eq_refl eq_refl) as [_ [Hend Hnext]].
  split; [exact Hend|].
  split; [exact (proj2 (Hnext "after" [] [] false None eq_refl eq_refl))|].
  split.
  - exact (proj2 (Hnext "after" ["* c"]
                    ["<ol>" ++ String "010" "<li>c</li>"] true (Some "ol")
                    eq_refl eq_refl)).
  - apply Hall. intros l Hl.
    repeat (destruct Hl as [<-|Hl]; [reflexivity|]). contradiction.
Defined.

(** C9: when a line [y] that is not an item closes a list, the line made
    of the closing tag and [y] reaches the assembler outside any paragraph,
    is appended as it is, and leaves the assembler outside any paragraph:
    no [<p>], [<br />] or [</p>] goes with it. *)
Theorem closing_line_outside_paragraph
        (before : list string) (y : string) (out : list string)
        (list_type : option string) :
  fold_left main_step before ([], false, None) = (out, true, list_type) ->
  is_item (list_input y) = false ->
  let closing := closing_line list_type (list_input y) in
  list_ (list_input y) true list_type = (closing, false, None)
  /\ startswith_any ["<h"; "</ul>"; "</ol>"] closing = true
  /\ exists html : list string,
       fold_left convert_step out (false, []) = (false, html)
       /\ forall rest : list string,
            fold_left convert_step (out ++ closing :: rest) (false, [])
            = fold_left convert_step rest (false, (html ++ [closing])%list).
Proof.
  intros Hbefore Hy closing.
  destruct (open_list_invariant before out list_type Hbefore) as [Htag Hflag].
  assert (Hmark : startswith_any ["<h"; "</ul>"; "</ol>"] closing = true).
  { unfold closing, closing_line; destruct Htag as [-> | ->]; reflexivity. }
  split; [|split; [exact Hmark|]].
  - unfold list_. unfold is_item in Hy. now rewrite Hy.
  - exists (loop_out false out).
    assert (Hout : fold_left convert_step out (false, [])
                   = (false, loop_out false out)).
    { now rewrite convert_loop, Hflag. }
    split; [exact Hout|].
    intros rest.
    rewrite fold_left_app, Hout. cbn [fold_left].
    rewrite convert_step_acc. unfold step_flag, step_out.
    now rewrite (step_closing false closing Hmark).
Qed.

Lemma closing_line_outside_paragraph_witness :
  list_ "after" true (Some "ul") = ("</ul>after", false, None)
  /\ main ["intro"; "- a"; "after"; "more"]
     = ["<p>"; "intro"; "<ul>" ++ String "010" "<li>a</li>"; "</ul>after";
        "<p>"; "more"; "</p>"].
Proof.
  pose proof (closing_line_outside_paragraph ["intro"; "- a"] "after"
                ["intro"; "<ul>" ++ String "010" "<li>a</li>"] (Some "ul")
                eq_refl eq_refl) as [Hlist _].
  split; [exact Hlist | reflexivity].
Defined.

(** * More on the inline rewriter *)

Section MoreSubFacts.

Variables o1 o2 c1 c2 : ascii.
Variable repl : string -> string.

Local Notation "'OPEN'" := (Re.delimiter o1 o2).
Local Notation "'CLOSE'" := (Re.delimiter c1 c2).

Lemma contains_intro (p a b : string) : contains p (a ++ p ++ b) = true.
Proof.
  induction a as [|x a IH].
  - cbn [append]. destruct (p ++ b) eqn:E; cbn [contains];
      rewrite <- E, startswith_app; reflexivity.
  - cbn [append contains]. rewrite IH. apply orb_true_r.
Qed.

Lemma contains_tail (p s : string) (a : ascii) :
  contains p (String a s) = false -> contains p s = false.
Proof. cbn [contains]. intros H. now apply orb_false_elim in H as [_ H]. Qed.

(** Without a closing delimiter nothing matches. *)
Lemma sub_no_closing (s : string) :
  contains CLOSE s = false -> Re.sub OPEN CLOSE repl s = s.
Proof.
  induction s as [|a s IH]; intros H; rewrite sub_equation.
  - reflexivity.
  - destruct (Re.match_at OPEN CLOSE (String a s)) as [[g r]|] eqn:E.
    + apply match_at_inv in E.
      rewrite E in H.
      apply contains_app_r in H.
      rewrite contains_intro in H. discriminate.
    + f_equal. apply IH. eapply contains_tail; eassumption.
Qed.

End MoreSubFacts.

(** X1: a directive that is not closed, or not opened, stays as it is: a
    line in which one delimiter of each pair is missing is left unchanged
    by [remove_character]. *)
Theorem remove_character_unbalanced (line : string) :
  contains "[[" line = false \/ contains "]]" line = false ->
  contains "((" line = false \/ contains "))" line = false ->
  remove_character line = line.
Proof.
  intros Hhash Hparen.
  unfold remove_character.
  assert (E : Re.sub "[[" "]]" (fun group1 => md5_hash group1) line = line).
  { destruct Hhash as [H|H].
    - now apply (sub_no_opening "[" "[" "]" "]").
    - now apply (sub_no_closing "[" "[" "]" "]"). }
  rewrite E.
  destruct Hparen as [H|H].
  - now apply (sub_no_opening "(" "(" ")" ")").
  - now apply (sub_no_closing "(" "(" ")" ")").
Qed.

Lemma remove_character_unbalanced_witness :
  remove_character "f((x) + [[y] ] )" = "f((x) + [[y] ] )"
  /\ remove_character "a ]] b )) c" = "a ]] b )) c".
Proof.
  split.
  - apply remove_character_unbalanced; [right | right]; reflexivity.
  - apply remove_character_unbalanced; [left | left]; reflexivity.
Defined.

(** X2: [process_inline_formatting] leaves a line without [**] and
    without [__] unchanged. *)
Theorem process_inline_formatting_plain (text : string) :
  contains "**" text = false ->
  contains "__" text = false ->
  process_inline_formatting text = text.
Proof.
  intros Hb He.
  unfold process_inline_formatting.
  rewrite (sub_no_opening "*" "*" "*" "*") by exact Hb.
  now apply (sub_no_opening "_" "_" "_" "_").
Qed.

Lemma process_inline_formatting_plain_witness :
  process_inline_formatting "2 * 3 * snake_case" = "2 * 3 * snake_case".
Proof. apply process_inline_formatting_plain; reflexivity. Defined.

(** X3: the first [**TEXT**] span of a line becomes [<b>TEXT</b>]; the
    text around it is kept where it holds no other span (no further [**],
    no underscore). *)
Theorem bold_span (pre text post : string) :
  contains "**" (pre ++ "*") = false ->
  mem "010" text = false ->
  contains "**" (text ++ "*") = false ->
  contains "**" post = false ->
  mem "_" pre = false -> mem "_" text = false -> mem "_" post = false ->
  process_inline_formatting (pre ++ "**" ++ text ++ "**" ++ post)
  = pre ++ "<b>" ++ text ++ "</b>" ++ post.
Proof.
  intros Hpre Hnl Hclose Hpost U1 U2 U3.
  unfold process_inline_formatting.
  rewrite (sub_first_span "*" "*" "*" "*"
             (fun group1 => "<b>" ++ group1 ++ "</b>")) by assumption.
  rewrite (sub_no_opening "*" "*" "*" "*" _ post) by assumption.
  replace (pre ++ "<b>" ++ text ++ "</b>" ++ post)
    with (pre ++ ("<b>" ++ text ++ "</b>") ++ post)
    by (cbn [append]; now rewrite str_app_assoc).
  apply (sub_no_opening "_" "_" "_" "_").
  apply contains_absent.
  rewrite !mem_app, U1, U2, U3. reflexivity.
Qed.

Lemma bold_span_witness :
  process_inline_formatting "Hello **big * world**!"
  = "Hello <b>big * world</b>!".
Proof.
  exact (bold_span "Hello " "big * world" "!"
           eq_refl eq_refl eq_refl eq_refl eq_refl eq_refl eq_refl).
Defined.

(** X4: in a line without [**], the first [__TEXT__] span becomes
    [<em>TEXT</em>], the text before it is copied and the text behind it is
    rewritten in turn. *)
Theorem emphasis_span (pre text post : string) :
  contains "**" (pre ++ "__" ++ text ++ "__" ++ post) = false ->
  contains "__" (pre ++ "_") = false ->
  mem "010" text = false ->
  contains "__" (text ++ "_") = false ->
  process_inline_formatting (pre ++ "__" ++ text ++ "__" ++ post)
  = pre ++ "<em>" ++ text ++ "</em>" ++ process_inline_formatting post.
Proof.
  intros Hbold Hpre Hnl Hclose.
  unfold process_inline_formatting.
  rewrite (sub_no_opening "*" "*" "*" "*") by exact Hbold.
  rewrite (sub_no_opening "*" "*" "*" "*" _ post).
  - rewrite (sub_first_span "_" "_" "_" "_"
               (fun group1 => "<em>" ++ group1 ++ "</em>")) by assumption.
    cbn [append]. now rewrite str_app_assoc.
  - do 3 apply contains_app_r in Hbold. exact Hbold.
Qed.

Lemma emphasis_span_witness :
  process_inline_formatting "a_b __c_d__ and __e__"
  = "a_b <em>c_d</em> and <em>e</em>".
Proof.
  exact (emphasis_span "a_b " "c_d" " and __e__"
           eq_refl eq_refl eq_refl eq_refl).
Defined.

(** * More on headings *)

Section MoreHeadingFacts.

Lemma rstrip_repeat (c : ascii) (n : nat) :
  rstrip_by (fun a => mem a (String c "")) (repeat_char c n ++ "") = "".
Proof.
  induction n as [|n IH]; cbn [repeat_char append rstrip_by]; [reflexivity|].
  rewrite IH. cbn [mem]. now rewrite Ascii.eqb_refl.
Qed.

(** [strip('#')] on a run of [#] and a text without [#]. *)
Lemma strip_hashes (n : nat) (text : string) :
  count_char "#" text = 0 ->
  strip_chars "#" (repeat_char "#" n ++ text) = text.
Proof.
  intros H. unfold strip_chars, strip_by.
  destruct text as [|d s].
  - now rewrite rstrip_repeat.
  - assert (Hd : Ascii.eqb d "#" = false).
    { cbn [count_char] in H. destruct (Ascii.eqb d "#"); [discriminate|reflexivity]. }
    rewrite rstrip_by_app; rewrite (rstrip_absent "#" _ H); [|discriminate].
    now apply lstrip_repeat.
Qed.

End MoreHeadingFacts.

(** X5: a line made of [n] hashes, [n] at least 1, and a title without
    [#] becomes the heading of level [n] of the trimmed title; no space is
    needed behind the hashes, and the title may be empty. *)
Theorem heading_of_hashes (L : nat) (text : string) :
  count_char "#" text = 0 ->
  heading (repeat_char "#" (S L) ++ text)
  = "<h" ++ str_of_nat (S L) ++ ">" ++ strip text
         ++ "</h" ++ str_of_nat (S L) ++ ">".
Proof.
  intros H. unfold heading.
  replace (startswith "#" (repeat_char "#" (S L) ++ text)) with true
    by reflexivity.
  cbv zeta.
  now rewrite count_char_repeat, H, Nat.add_0_r, strip_hashes.
Qed.

Lemma heading_of_hashes_witness :
  heading "##Title" = "<h2>Title</h2>" /\ heading "###" = "<h3></h3>".
Proof.
  split.
  - exact (heading_of_hashes 1 "Title" eq_refl).
  - exact (heading_of_hashes 2 "" eq_refl).
Defined.

(** X6: a line that starts with [#] is never taken for a list item once
    it is a heading: [list] closes an open list in front of it and passes
    it on outside a list, and [convert_line] sees a structural marker. *)
Theorem heading_line_is_marker (line : string) (list_type : option string) :
  startswith "#" line = true ->
  list_ (heading line) true list_type
  = (closing_line list_type (heading line), false, None)
  /\ list_ (heading line) false list_type = (heading line, false, list_type)
  /\ startswith_any ["<h"; "</ul>"; "</ol>"] (heading line) = true.
Proof.
  intros H. unfold heading. rewrite H. cbv zeta.
  repeat split; reflexivity.
Qed.

Lemma heading_line_is_marker_witness :
  list_ (heading "# - not an item") true (Some "ol")
  = ("</ol><h1>- not an item</h1>", false, None).
Proof.
  exact (proj1 (heading_line_is_marker "# - not an item" (Some "ol") eq_refl)).
Defined.

(** * More on the loop of [__main__] *)

Section MoreTrackerFacts.

(** One turn of the loop, whatever the line: one more processed line, and
    the list is open afterwards exactly if the line was an item. *)
Lemma main_step_cases (acc : list string) (il : bool) (lt : option string)
      (x : string) :
  exists (p : string) (lt' : option string),
    main_step (acc, il, lt) x = ((acc ++ [p])%list, is_item (list_input x), lt')
    /\ (is_item (list_input x) = true -> il = true -> lt' = lt)
    /\ (is_item (list_input x) = true -> il = false ->
        lt' = Some "ul" \/ lt' = Some "ol")
    /\ (is_item (list_input x) = false -> il = true -> lt' = None)
    /\ (is_item (list_input x) = false -> il = false -> lt' = lt).
Proof.
  destruct (is_item (list_input x)) eqn:E; destruct il.
  - rewrite main_step_item_open by exact E.
    eexists _, _; split; [reflexivity|]. repeat split; congruence.
  - rewrite main_step_item_closed by exact E.
    eexists _, _; split; [reflexivity|].
    repeat split; try congruence.
    intros _ _. unfold tag_of. destruct (startswith "- " (list_input x)); auto.
  - rewrite main_step_text_open by exact E.
    eexists _, _; split; [reflexivity|]. repeat split; congruence.
  - rewrite main_step_text_closed by exact E.
    eexists _, _; split; [reflexivity|]. repeat split; congruence.
Qed.

(** Lines without Markdown go through the loop as they are. *)
Lemma main_loop_no_markdown (lines acc : list string) :
  forallb no_markdown lines = true ->
  fold_left main_step lines (acc, false, None)
  = ((acc ++ lines)%list, false, None).
Proof.
  revert acc; induction lines as [|x lines IH]; intros acc H;
    cbn [fold_left].
  - now rewrite app_nil_r.
  - cbn [forallb] in H. apply andb_prop in H as [Hx Hrest].
    rewrite main_step_text_closed
      by (rewrite (no_markdown_untouched x Hx);
          exact (no_markdown_not_item x Hx)).
    rewrite (no_markdown_untouched x Hx), IH by exact Hrest.
    now rewrite <- app_assoc.
Qed.

End MoreTrackerFacts.

(** X7: the loop of [__main__] produces one line for every line of the
    input; no line is dropped before [convert_line]. *)
Theorem one_processed_line_per_line (lines : list string) :
  List.length (fst (fst (fold_left main_step lines ([], false, None))))
  = List.length lines.
Proof.
  induction lines as [|x lines IH] using rev_ind; [reflexivity|].
  rewrite fold_left_app. cbn [fold_left].
  destruct (fold_left main_step lines ([], false, None)) as [[acc il] lt].
  destruct (main_step_cases acc il lt x) as (p & lt' & E & _).
  rewrite E. cbn [fst] in IH |- *.
  rewrite !length_app, IH. reflexivity.
Qed.

(** X8: after any input the list state is one of three: no list open and
    no type, or a list open of type [ul] or [ol]. *)
Theorem list_state_invariant (lines : list string) :
  let st := fold_left main_step lines ([], false, None) in
  (snd (fst st) = false /\ snd st = None)
  \/ (snd (fst st) = true /\ (snd st = Some "ul" \/ snd st = Some "ol")).
Proof.
  induction lines as [|x lines IH] using rev_ind; [left; split; reflexivity|].
  cbv zeta in IH |- *.
  rewrite fold_left_app. cbn [fold_left].
  destruct (fold_left main_step lines ([], false, None)) as [[acc il] lt].
  cbn [fst snd] in IH.
  destruct (main_step_cases acc il lt x) as (p & lt' & E & H1 & H2 & H3 & H4).
  rewrite E. cbn [fst snd].
  destruct (is_item (list_input x)); destruct il;
    destruct IH as [[Hil Hlt]|[Hil Hlt]]; try discriminate.
  - right. split; [reflexivity|]. now rewrite H1.
  - right. split; [reflexivity|]. now apply H2.
  - left. split; [reflexivity|]. now apply H3.
  - left. split; [reflexivity|]. now rewrite H4.
Qed.

(** X9: after an input that is not empty, a list is open exactly if the
    last line was an item; so the output of [main] is the output of
    [convert_line] and then, exactly if the last line was an item, one
    closing tag, [</ul>] or [</ol>]. *)
Theorem list_open_iff_last_item (lines : list string) (last : string) :
  let st := fold_left main_step (lines ++ [last]) ([], false, None) in
  snd (fst st) = is_item (list_input last)
  /\ main (lines ++ [last])
     = (convert_line (fst (fst st))
          ++ (if is_item (list_input last) then [closing_tag (snd st)] else []))%list
  /\ (is_item (list_input last) = true ->
      closing_tag (snd st) = "</ul>" \/ closing_tag (snd st) = "</ol>").
Proof.
  cbv zeta.
  assert (E : snd (fst (fold_left main_step (lines ++ [last]) ([], false, None)))
              = is_item (list_input last)).
  { rewrite fold_left_app. cbn [fold_left].
    destruct (fold_left main_step lines ([], false, None)) as [[acc il] lt].
    destruct (main_step_cases acc il lt last) as (p & lt' & E & _).
    now rewrite E. }
  split; [exact E|].
  split.
  - rewrite main_eq, E. reflexivity.
  - intros Hitem. rewrite Hitem in E.
    destruct (fold_left main_step (lines ++ [last]) ([], false, None))
      as [[out il] lt] eqn:Est.
    cbn [fst snd] in E |- *. subst il.
    destruct (open_list_invariant _ _ _ Est) as [[-> | ->] _];
      [now left | now right].
Qed.

(** X10: on lines without Markdown the pipeline is [convert_line]
    alone. *)
Theorem main_without_markdown (lines : list string) :
  forallb no_markdown lines = true ->
  main lines = convert_line lines.
Proof.
  intros H. unfold main.
  rewrite main_loop_no_markdown by exact H.
  cbn [app]. now rewrite app_nil_r.
Qed.

Lemma main_without_markdown_witness :
  main ["one"; "two"; ""; "<hr>"; "three"]
  = convert_line ["one"; "two"; ""; "<hr>"; "three"].
Proof. apply main_without_markdown. reflexivity. Defined.

(** * More on the paragraph assembler *)

Section MoreAssemblerFacts.

Lemma loop_out_app (b : bool) (l1 l2 : list string) :
  loop_out b (l1 ++ l2)
  = (loop_out b l1 ++ loop_out (loop_flag b l1) l2)%list.
Proof.
  revert b; induction l1 as [|x l1 IH]; intros b;
    cbn [app loop_out loop_flag]; [reflexivity|].
  now rewrite IH, app_assoc.
Qed.

Lemma step_blank (b : bool) (line : string) :
  is_blank line = true ->
  convert_step (b, []) line = (false, if b then ["</p>"] else []).
Proof.
  unfold is_blank; intros H.
  apply andb_prop in H as [H H3]. apply andb_prop in H as [H1 H2].
  apply negb_true_iff in H1, H2.
  unfold convert_step. rewrite H1, H2, H3. now destruct b.
Qed.

Lemma step_text (b : bool) (line : string) :
  is_text line = true ->
  convert_step (b, []) line
  = (true, if b then ["<br />"; line] else ["<p>"; line]).
Proof.
  unfold is_text; intros H.
  apply andb_prop in H as [H H3]. apply andb_prop in H as [H1 H2].
  apply negb_true_iff in H1, H2, H3.
  unfold convert_step. rewrite H1, H2, H3. now destruct b.
Qed.

(** A line is kept by the turn of the loop unless it is blank. *)
Lemma step_keeps (b : bool) (line : string) :
  is_blank line = false -> In line (step_out b line).
Proof.
  unfold is_blank, step_out, convert_step.
  destruct (startswith_any ["<h"; "</ul>"; "</ol>"] line);
    [|destruct (startswith_any ["<ul"; "<li"; "<ol"] line);
      [|destruct (String.eqb (strip line) "")]];
    destruct b; cbn [negb andb fst snd app In]; intros H;
    try discriminate; auto.
Qed.

(** The turn of the loop for a line that opens no list item or list. *)
Lemma step_cases_no_opening (b : bool) (line : string) :
  startswith_any ["<ul"; "<li"; "<ol"] line = false ->
  convert_step (b, []) line
  = (false, if b then ["</p>"; line] else [line])
  \/ convert_step (b, []) line = (false, if b then ["</p>"] else [])
  \/ convert_step (b, []) line
     = (true, if b then ["<br />"; line] else ["<p>"; line]).
Proof.
  intros H. unfold convert_step. rewrite H.
  destruct (startswith_any ["<h"; "</ul>"; "</ol>"] line);
    [|destruct (String.eqb (strip line) "")];
    destruct b; cbn [negb app]; auto.
Qed.

Lemma loop_blank (lines : list string) :
  forallb is_blank lines = true ->
  loop_out false lines = [] /\ loop_flag false lines = false.
Proof.
  induction lines as [|x lines IH]; cbn [forallb loop_out loop_flag];
    intros H; [split; reflexivity|].
  apply andb_prop in H as [Hx Hrest].
  unfold step_out, step_flag. rewrite (step_blank false x Hx).
  cbn [fst snd app]. now apply IH.
Qed.

Lemma loop_text (lines : list string) :
  forallb is_text lines = true ->
  loop_out true lines = with_breaks lines /\ loop_flag true lines = true.
Proof.
  induction lines as [|x lines IH];
    cbn [forallb loop_out loop_flag with_breaks flat_map];
    intros H; [split; reflexivity|].
  apply andb_prop in H as [Hx Hrest].
  unfold step_out, step_flag. rewrite (step_text true x Hx).
  cbn [fst snd app].
  destruct (IH Hrest) as [-> ->]. split; reflexivity.
Qed.

(** Between the [<p>] and [</p>] lines of the assembler's own. *)
Lemma assembled_balanced (lines : list string) (b : bool) :
  Forall (fun line =>
            startswith_any ["<ul"; "<li"; "<ol"] line = false
            /\ line <> "<p>" /\ line <> "</p>") lines ->
  count_occ string_dec
    (loop_out b lines ++ (if loop_flag b lines then ["</p>"] else []))%list
    "</p>"
  = (if b then 1 else 0)
    + count_occ string_dec
        (loop_out b lines ++ (if loop_flag b lines then ["</p>"] else []))%list
        "<p>".
Proof.
  intros H; revert b; induction H as [|x lines (Hx & Hp & Hq) _ IH]; intros b.
  - cbn [loop_out loop_flag app]. now destruct b.
  - cbn [loop_out loop_flag]. rewrite <- app_assoc.
    unfold step_out, step_flag.
    destruct (step_cases_no_opening b x Hx) as [E|[E|E]]; rewrite E;
      destruct b; cbn [fst snd app];
      repeat first
        [ rewrite count_occ_cons_eq by reflexivity
        | rewrite count_occ_cons_neq by (congruence || discriminate) ];
      rewrite IH; lia.
Qed.

Lemma assembled_origin (lines : list string) (b : bool) (l : string) :
  In l (loop_out b lines ++ (if loop_flag b lines then ["</p>"] else []))%list ->
  In l lines \/ l = "<p>" \/ l = "</p>" \/ l = "<br />".
Proof.
  revert b; induction lines as [|x lines IH]; intros b H.
  - cbn [loop_out loop_flag app] in H.
    destruct b; cbn [In] in H; intuition.
  - cbn [loop_out loop_flag] in H. rewrite <- app_assoc in H.
    apply in_app_or in H as [H|H].
    + unfold step_out in H.
      destruct (step_cases b x)
        as [E|[[_ E]|[[_ E]|[[_ E]|[[_ E]|[_ E]]]]]];
        rewrite E in H; cbn [snd In] in H;
        intuition (subst; cbn [In]; auto).
    + destruct (IH _ H) as [H'|H']; [left; now right | now right].
Qed.

Lemma assembled_keeps (lines : list string) (b : bool) (l : string) :
  In l lines -> is_blank l = false ->
  In l (loop_out b lines ++ (if loop_flag b lines then ["</p>"] else []))%list.
Proof.
  revert b; induction lines as [|x lines IH]; intros b Hin Hl; [contradiction|].
  cbn [loop_out loop_flag]. rewrite <- app_assoc.
  apply in_or_app.
  destruct Hin as [->|Hin].
  - left. now apply step_keeps.
  - right. now apply IH.
Qed.

End MoreAssemblerFacts.

(** X11: a blank line cuts the input of [convert_line] in two parts that
    are assembled apart; the blank line itself is dropped. *)
Theorem blank_line_splits (before after : list string) (blank : string) :
  is_blank blank = true ->
  convert_line (before ++ blank :: after)
  = (convert_line before ++ convert_line after)%list.
Proof.
  intros H.
  rewrite !convert_line_loop, loop_out_app, loop_flag_app.
  cbn [loop_out loop_flag]. unfold step_out, step_flag.
  rewrite (step_blank _ blank H). cbn [fst snd].
  rewrite <- !app_assoc.
  destruct (loop_flag false before); reflexivity.
Qed.

Lemma blank_line_splits_witness :
  convert_line ["a"; "b"; "   "; "c"]
  = ["<p>"; "a"; "<br />"; "b"; "</p>"; "<p>"; "c"; "</p>"].
Proof.
  exact (blank_line_splits ["a"; "b"] ["c"] "   " eq_refl).
Defined.

(** X12: a line that starts with [<h], [</ul>] or [</ol>] cuts the input
    of [convert_line] in the same way, and stands between the two
    parts. *)
Theorem marker_line_splits (before after : list string) (marker : string) :
  startswith_any ["<h"; "</ul>"; "</ol>"] marker = true ->
  convert_line (before ++ marker :: after)
  = (convert_line before ++ marker :: convert_line after)%list.
Proof.
  intros H.
  rewrite !convert_line_loop, loop_out_app, loop_flag_app.
  cbn [loop_out loop_flag]. unfold step_out, step_flag.
  rewrite (step_closing _ marker H). cbn [fst snd].
  rewrite <- !app_assoc.
  destruct (loop_flag false before); reflexivity.
Qed.

Lemma marker_line_splits_witness :
  convert_line ["a"; "<h2>t</h2>"; "b"]
  = ["<p>"; "a"; "</p>"; "<h2>t</h2>"; "<p>"; "b"; "</p>"].
Proof.
  exact (marker_line_splits ["a"] ["b"] "<h2>t</h2>" eq_refl).
Defined.

(** X13: a run of text lines is one paragraph: [<p>], the first line,
    every further line behind a [<br />], and [</p>]. *)
Theorem text_run_is_one_paragraph (first : string) (others : list string) :
  forallb is_text (first :: others) = true ->
  convert_line (first :: others)
  = ("<p>" :: first :: with_breaks others ++ ["</p>"])%list.
Proof.
  cbn [forallb]; intros H. apply andb_prop in H as [Hf Ho].
  rewrite convert_line_loop. cbn [loop_out loop_flag].
  unfold step_out, step_flag. rewrite (step_text false first Hf).
  cbn [fst snd app].
  destruct (loop_text others Ho) as [-> ->]. reflexivity.
Qed.

Lemma text_run_is_one_paragraph_witness :
  convert_line ["a"; "b"; "c"]
  = ["<p>"; "a"; "<br />"; "b"; "<br />"; "c"; "</p>"].
Proof.
  exact (text_run_is_one_paragraph "a" ["b"; "c"] eq_refl).
Defined.

(** X14: [convert_line] invents nothing but its three tags: every line
    of the output is a line of the input, [<p>], [</p>] or [<br />]. *)
Theorem output_lines_origin (lines : list string) (l : string) :
  In l (convert_line lines) ->
  In l lines \/ l = "<p>" \/ l = "</p>" \/ l = "<br />".
Proof.
  rewrite convert_line_loop. apply assembled_origin.
Qed.

Lemma output_lines_origin_witness :
  In "<br />" ["a"; "b"] \/ "<br />" = "<p>" \/ "<br />" = "</p>"
  \/ "<br />" = "<br />".
Proof.
  apply (output_lines_origin ["a"; "b"] "<br />").
  vm_compute. tauto.
Defined.

(** X15: [convert_line] drops blank lines only: every line of the input
    that is not blank is a line of the output. *)
Theorem kept_lines (lines : list string) (l : string) :
  In l lines -> is_blank l = false -> In l (convert_line lines).
Proof.
  rewrite convert_line_loop. apply assembled_keeps.
Qed.

Lemma kept_lines_witness :
  In "<li>x</li>" (convert_line ["a"; ""; "<li>x</li>"]).
Proof.
  apply kept_lines; [simpl; auto | reflexivity].
Defined.

(** X16: an input of blank lines only, the empty input among them, gives
    no output at all. *)
Theorem blank_input_gives_nothing (lines : list string) :
  forallb is_blank lines = true -> convert_line lines = [].
Proof.
  intros H. rewrite convert_line_loop.
  now destruct (loop_blank lines H) as [-> ->].
Qed.

Lemma blank_input_gives_nothing_witness :
  convert_line [""; "   "; String "009" ""] = [].
Proof. apply blank_input_gives_nothing. reflexivity. Defined.

(** X17: where no line of the input starts with [<ul], [<li] or [<ol], and
    none is itself [<p>] or [</p>], the output holds as many [</p>] lines
    as [<p>] lines: every paragraph is closed. *)
Theorem paragraphs_closed_without_lists (lines : list string) :
  Forall (fun line =>
            startswith_any ["<ul"; "<li"; "<ol"] line = false
            /\ line <> "<p>" /\ line <> "</p>") lines ->
  count_occ string_dec (convert_line lines) "</p>"
  = count_occ string_dec (convert_line lines) "<p>".
Proof.
  intros H. rewrite convert_line_loop.
  exact (assembled_balanced lines false H).
Qed.

Lemma paragraphs_closed_without_lists_witness :
  count_occ string_dec (convert_line ["a"; "<h1>t</h1>"; "b"; ""; "c"]) "</p>"
  = count_occ string_dec (convert_line ["a"; "<h1>t</h1>"; "b"; ""; "c"]) "<p>".
Proof.
  apply paragraphs_closed_without_lists.
  repeat constructor; discriminate.
Defined.

(** * Reading, writing and the command line *)

Section FileFacts.

Local Notation "'LF'" := ("010"%char).
Local Notation "'is_lf'" := (fun a : ascii => mem a (String "010" EmptyString)).

Lemma is_lf_false (a : ascii) : Ascii.eqb a LF = false -> is_lf a = false.
Proof. intros H; cbn [mem]. now rewrite H. Qed.

Lemma mem_lf_cons (a : ascii) (s : string) :
  mem LF (String a s) = false -> Ascii.eqb a LF = false /\ mem LF s = false.
Proof.
  cbn [mem]. intros H. apply orb_false_elim in H as [H1 H2].
  rewrite Ascii.eqb_sym in H1. now split.
Qed.

Lemma rstrip_lf_body (body : string) :
  mem LF body = false -> rstrip_by is_lf body = body.
Proof.
  induction body as [|a body IH]; intros H; [reflexivity|].
  apply mem_lf_cons in H as [Ha Hb].
  cbn [rstrip_by]. rewrite (IH Hb).
  destruct body; [|reflexivity].
  now rewrite (is_lf_false a Ha).
Qed.

Lemma rstrip_lf_line (body : string) :
  mem LF body = false -> rstrip_by is_lf (body ++ String LF "") = body.
Proof.
  induction body as [|a body IH]; intros H; [reflexivity|].
  apply mem_lf_cons in H as [Ha Hb].
  cbn [append rstrip_by]. rewrite (IH Hb).
  destruct body; [|reflexivity].
  now rewrite (is_lf_false a Ha).
Qed.

Lemma lstrip_lf_body (body : string) :
  mem LF body = false -> lstrip_by is_lf body = body.
Proof.
  destruct body as [|a body]; intros H; [reflexivity|].
  apply mem_lf_cons in H as [Ha _].
  cbn [lstrip_by]. now rewrite (is_lf_false a Ha).
Qed.

(** [strip('\n')] gives the body of the line. *)
Lemma strip_raw_line (body line : string) :
  raw_line body line -> strip_chars (String LF "") line = body.
Proof.
  intros [Hb [-> | ->]]; unfold strip_chars, strip_by.
  - now rewrite rstrip_lf_body, lstrip_lf_body.
  - now rewrite rstrip_lf_line, lstrip_lf_body.
Qed.

Lemma iter_lines_nil (content : string) :
  iter_lines content = [] -> content = "".
Proof.
  destruct content as [|a rest]; [reflexivity|].
  cbn [iter_lines].
  destruct (Ascii.eqb a LF); [discriminate|].
  destruct (iter_lines rest); discriminate.
Qed.

Lemma iter_lines_raw (content : string) :
  Forall (fun line => exists body, raw_line body line) (iter_lines content).
Proof.
  induction content as [|a rest IH]; [constructor|].
  cbn [iter_lines].
  destruct (Ascii.eqb a LF) eqn:Ea.
  - apply Ascii.eqb_eq in Ea; subst a.
    constructor; [|exact IH].
    exists "". split; [reflexivity | now right].
  - destruct (iter_lines rest) as [|l ls].
    + constructor; [|constructor].
      exists (String a ""). split; [|now left].
      cbn [mem]. now rewrite Ascii.eqb_sym, Ea.
    + inversion IH as [|? ? [body [Hb Hl]] Hls]; subst.
      constructor; [|exact Hls].
      exists (String a body). split.
      * cbn [mem]. now rewrite Ascii.eqb_sym, Ea, Hb.
      * destruct Hl as [-> | ->]; [now left | now right].
Qed.

End FileFacts.

(** X18: no line read from the file holds a line feed, so the [.] of the
    inline patterns, which refuses the line feed alone, matches every
    character of a line. *)
Theorem read_lines_no_line_feed (content line : string) :
  In line (read_lines content) -> mem "010" line = false.
Proof.
  unfold read_lines. intros H.
  apply in_map_iff in H as (raw & <- & Hraw).
  pose proof (iter_lines_raw content) as Hall.
  rewrite Forall_forall in Hall.
  destruct (Hall raw Hraw) as [body Hbody].
  rewrite (strip_raw_line body raw Hbody).
  exact (proj1 Hbody).
Qed.

Lemma read_lines_no_line_feed_witness :
  mem "010" "# Title" = false.
Proof.
  apply (read_lines_no_line_feed
           ("# Title" ++ String "010" (String "010" "text"))).
  vm_compute. auto.
Defined.

(** X19: writing back the lines read from a text gives the text again,
    with a line feed added at the end if the text is not empty and had
    none: reading loses nothing else. *)
Theorem write_read_lines (content : string) :
  write_lines (read_lines content)
  = content ++ (if lacks_final_lf content then String "010" "" else "").
Proof.
  unfold read_lines.
  induction content as [|a rest IH]; [reflexivity|].
  cbn [iter_lines].
  destruct (Ascii.eqb a "010") eqn:Ea.
  - apply Ascii.eqb_eq in Ea; subst a.
    cbn [map write_lines]. rewrite IH.
    replace (strip_chars (String "010" "") (String "010" "")) with ""
      by reflexivity.
    cbn [append]. f_equal.
    destruct rest; reflexivity.
  - pose proof (iter_lines_raw rest) as Hraw.
    destruct (iter_lines rest) as [|l ls] eqn:El.
    + apply iter_lines_nil in El; subst rest.
      cbn [map write_lines lacks_final_lf append]. rewrite Ea.
      cbn [negb].
      rewrite (strip_raw_line (String a "") (String a ""));
        [reflexivity|].
      split; [|now left]. cbn [mem]. now rewrite Ascii.eqb_sym, Ea.
    + inversion Hraw as [|? ? [body Hbody] _]; subst.
      cbn [map write_lines] in IH |- *.
      rewrite (strip_raw_line body l Hbody) in IH.
      rewrite (strip_raw_line (String a body) (String a l)).
      * cbn [append]. rewrite IH. cbn [append]. f_equal.
        destruct rest; [discriminate El | reflexivity].
      * destruct Hbody as [Hb Hl]. split.
        -- cbn [mem]. now rewrite Ascii.eqb_sym, Ea, Hb.
        -- destruct Hl as [-> | ->]; [now left | now right].
Qed.

(** X20: the script writes the HTML file exactly when it is given two
    arguments at least and both files open; the file written is the
    second argument, and its text is the lines of [main] on the lines
    read. *)
Theorem script_finishes_iff (argv : list string) (e : env)
        (html_file text : string) :
  script argv e = Finished html_file text
  <-> 3 <= List.length argv
      /\ html_file = nth 2 argv ""
      /\ open_write e html_file = Opens tt
      /\ exists content : string,
           open_read e (nth 1 argv "") = Opens content
           /\ text = write_lines (main (read_lines content)).
Proof.
  unfold script.
  destruct (Nat.ltb_spec (List.length argv) 3) as [Hlt|Hge].
  - split; [discriminate | intros [H _]; lia].
  - destruct (open_read e (nth 1 argv "")) as [content| |];
      [|split; [discriminate | intros (_ & _ & _ & c & Hc & _); discriminate]..].
    destruct (open_write e (nth 2 argv "")) as [[]| |] eqn:Ew.
    + split.
      * intros [= <- <-]. repeat split; try assumption.
        exists content. split; reflexivity.
      * intros (_ & -> & _ & c & [= <-] & ->). reflexivity.
    + split; [discriminate|].
      intros (_ & -> & Hw & _). rewrite Ew in Hw. discriminate.
    + split; [discriminate|].
      intros (_ & -> & Hw & _). rewrite Ew in Hw. discriminate.
Qed.

Lemma script_finishes_iff_witness :
  script ["markdown2html.py"; "README.md"; "README.html"]
         (Env (fun name =>
                 if String.eqb name "README.md"
                 then Opens ("# Title" ++ String "010" "")
                 else FileNotFound)
              (fun _ => Opens tt))
  = Finished "README.html" ("<h1>Title</h1>" ++ String "010" "").
Proof.
  apply script_finishes_iff.
  split; [simpl; lia|].
  split; [reflexivity|].
  split; [reflexivity|].
  exists ("# Title" ++ String "010" ""). split; reflexivity.
Defined.

(** X21: with two arguments at least, the script answers
    [Missing <markdown file>] when the Markdown file is not found, and
    also when it is the HTML file that cannot be created because its
    directory is not found: the one handler catches both. *)
Theorem missing_names_the_markdown_file (argv : list string) (e : env) :
  3 <= List.length argv ->
  open_read e (nth 1 argv "") = FileNotFound
  \/ ((exists content, open_read e (nth 1 argv "") = Opens content)
      /\ open_write e (nth 2 argv "") = FileNotFound) ->
  script argv e = Failed ("Missing " ++ nth 1 argv "").
Proof.
  intros Hlen H. unfold script.
  destruct (Nat.ltb_spec (List.length argv) 3) as [Hlt|_]; [lia|].
  destruct H as [Hr | [[content Hr] Hw]]; rewrite Hr; [reflexivity|].
  now rewrite Hw.
Qed.

Lemma missing_names_the_markdown_file_witness :
  script ["markdown2html.py"; "README.md"; "out/README.html"]
         (Env (fun _ => Opens "text") (fun _ => FileNotFound))
  = Failed "Missing README.md".
Proof.
  apply missing_names_the_markdown_file; [simpl; lia|].
  right. split; [now exists "text" | reflexivity].
Defined.

(** * More on lists in the output *)

Section MoreListFacts.

Lemma step_out_not_blank (b : bool) (x l : string) :
  In l (step_out b x) -> is_blank l = false.
Proof.
  unfold step_out, convert_step.
  destruct (startswith_any ["<h"; "</ul>"; "</ol>"] x) eqn:E1;
    [|destruct (startswith_any ["<ul"; "<li"; "<ol"] x) eqn:E2;
      [|destruct (String.eqb (strip x) "") eqn:E3]];
    destruct b; cbn [negb fst snd app In]; intros H;
    repeat (destruct H as [<-|H]; [|]); try contradiction;
    try reflexivity;
    unfold is_blank; rewrite ?E1, ?E2, ?E3; reflexivity.
Qed.

Lemma assembled_not_blank (lines : list string) (b : bool) (l : string) :
  In l (loop_out b lines ++ (if loop_flag b lines then ["</p>"] else []))%list ->
  is_blank l = false.
Proof.
  revert b; induction lines as [|x lines IH]; intros b H.
  - cbn [loop_out loop_flag app] in H.
    destruct b; cbn [In] in H; [|contradiction].
    destruct H as [<-|[]]. reflexivity.
  - cbn [loop_out loop_flag] in H. rewrite <- app_assoc in H.
    apply in_app_or in H as [H|H].
    + exact (step_out_not_blank b x l H).
    + exact (IH _ H).
Qed.

(** Lines that start with [<ul], [<li] or [<ol] go through the loop of
    [convert_line] as they are. *)
Lemma loop_opening_lines (lines : list string) :
  forallb (startswith_any ["<ul"; "<li"; "<ol"]) lines = true ->
  (forall b, loop_out b lines = lines) /\ loop_flag false lines = false.
Proof.
  induction lines as [|x lines IH]; cbn [forallb]; intros H;
    [split; reflexivity|].
  apply andb_prop in H as [Hx Hrest].
  destruct (IH Hrest) as [Hout Hflag].
  split.
  - intros b. cbn [loop_out]. unfold step_out, step_flag.
    rewrite (step_opening b x Hx). cbn [fst snd app]. now rewrite Hout.
  - cbn [loop_flag]. unfold step_flag.
    now rewrite (step_opening false x Hx).
Qed.

Lemma opening_line_opens (line : string) :
  startswith_any ["<ul"; "<li"; "<ol"] (opening_line line) = true.
Proof.
  unfold opening_line, tag_of. now destruct (startswith "- " line).
Qed.

End MoreListFacts.

(** X22: a line that starts with [<ul], [<li] or [<ol] cuts the input of
    [convert_line] too, but a paragraph open in front of it loses its
    [</p>]: the output is the output of the part before, without that last
    line, then the line, then the output of the part behind. *)
Theorem opening_line_splits (before after : list string) (marker : string) :
  startswith_any ["<ul"; "<li"; "<ol"] marker = true ->
  convert_line (before ++ marker :: after)
  = ((if loop_flag false before
      then removelast (convert_line before)
      else convert_line before)
       ++ marker :: convert_line after)%list.
Proof.
  intros H.
  rewrite !convert_line_loop, loop_out_app, loop_flag_app.
  cbn [loop_out loop_flag]. unfold step_out, step_flag.
  rewrite (step_opening _ marker H). cbn [fst snd].
  destruct (loop_flag false before).
  - rewrite removelast_last, <- !app_assoc. reflexivity.
  - rewrite app_nil_r, <- !app_assoc. reflexivity.
Qed.

Lemma opening_line_splits_witness :
  convert_line ["text"; "<li>x</li>"; "more"]
  = ["<p>"; "text"; "<li>x</li>"; "<p>"; "more"; "</p>"].
Proof.
  exact (opening_line_splits ["text"] ["more"] "<li>x</li>" eq_refl).
Defined.

(** X23: an input made of item lines only is written as one list: the
    opening tag with the first item, one [<li>] line for every further
    item, and the closing tag of the type the first line chose ([ul] for
    [- ], [ol] for [* ]). *)
Theorem list_only_input (x : string) (items : list string) :
  is_item (list_input x) = true ->
  forallb (fun l => is_item (list_input l)) items = true ->
  main (x :: items)
  = (opening_line (list_input x)
       :: map (fun l => item (list_input l)) items
       ++ [closing_tag (Some (tag_of (list_input x)))])%list.
Proof.
  intros Hx Hitems. unfold main. cbn [fold_left].
  rewrite main_step_item_closed by exact Hx.
  rewrite main_loop_items by exact Hitems.
  cbn [app].
  assert (Hall : forallb (startswith_any ["<ul"; "<li"; "<ol"])
                   (opening_line (list_input x)
                      :: map (fun l => item (list_input l)) items) = true).
  { cbn [forallb]. rewrite opening_line_opens. cbn [andb].
    clear. induction items as [|y items IH]; [reflexivity|].
    cbn [map forallb]. now rewrite IH. }
  rewrite convert_line_loop.
  destruct (loop_opening_lines _ Hall) as [Hout Hflag].
  rewrite Hout, Hflag, app_nil_r. reflexivity.
Qed.

Lemma list_only_input_witness :
  main ["* one"; "- **two**"; "*   three  "]
  = ["<ol>" ++ String "010" "<li>one</li>"; "<li><b>two</b></li>";
     "<li>three</li>"; "</ol>"].
Proof.
  exact (list_only_input "* one" ["- **two**"; "*   three  "] eq_refl eq_refl).
Defined.

(** X24: the output of [convert_line] holds no blank line. *)
Theorem output_has_no_blank_line (lines : list string) (l : string) :
  In l (convert_line lines) -> is_blank l = false.
Proof.
  rewrite convert_line_loop. apply assembled_not_blank.
Qed.

Lemma output_has_no_blank_line_witness : is_blank "b" = false.
Proof.
  apply (output_has_no_blank_line ["a"; "  "; ""; "b"]).
  vm_compute. tauto.
Defined.
